(** * GraphRAG research assistant: the front-end components

    A shallow embedding of the React components of the repository
    (App, Header, FileUpload, QuestionForm, ResultsDisplay, StatsPanel)
    and the properties of their event handlers and render functions.

    - ECMAScript strings are sequences of UTF-16 code units.
    - ECMAScript numbers are IEEE-754 binary64 values (primitive floats),
      printed by Number::toString and Number.prototype.toFixed; lengths,
      the counters of the stats, which are shown as number children, and
      HTTP status codes are natural numbers and kept in [N].
    - The payloads of the backend have the fields the components read,
      with the types of the contract of the three endpoints; a field is
      optional where a component tests for it.
    - JSX is embedded as a tree of [node]s.  Class names, which only carry
      styling, and the event handlers of the elements are left out of the
      tree; the handlers are functions of their own.
    - Event handlers run in a state-and-exception monad over the state of
      the components and the trace of their observable effects; the
      answers of the HTTP backend are a parameter.  There an [async]
      handler is run to its end, with nothing between its awaits.  The
      upload handler, which awaits twice and can be started again while
      it waits, is also embedded turn by turn (module [Async]): each turn
      runs to completion, and the page may be in any state when the next
      one starts. *)

From Stdlib Require Import String Ascii List Bool Arith NArith ZArith Lia.
From Stdlib Require Import DecimalString Floats.
Import ListNotations.

Set Implicit Arguments.
Set Warnings "-register-all".
Open Scope string_scope.
Open Scope list_scope.

(* ================================================================== *)
(** ** ECMAScript strings *)

Module JS.

(** A string is a list of UTF-16 code units. *)
Abbreviation code_unit := N.
Definition jsstring := list code_unit.

(** An ASCII literal of the source as a [jsstring]. *)
Definition lit (s : string) : jsstring :=
  map N_of_ascii (list_ascii_of_string s).
Arguments lit s%_string.

(** [a === b] on two strings. *)
Fixpoint str_eqb (a b : jsstring) : bool :=
  match a, b with
  | [], [] => true
  | x :: a', y :: b' => N.eqb x y && str_eqb a' b'
  | _, _ => false
  end.

(** A string is falsy exactly when it is empty. *)
Definition truthy (s : jsstring) : bool :=
  match s with [] => false | _ :: _ => true end.

(** [a || b] on strings. *)
Definition or_else (a b : jsstring) : jsstring :=
  if truthy a then a else b.

(** [s.slice(start, end)] for non-negative indices. *)
Definition slice (s : jsstring) (start end_ : nat) : jsstring :=
  firstn (end_ - start) (skipn start s).

(** [l.join(sep)] on an array of strings. *)
Fixpoint join (sep : jsstring) (l : list jsstring) : jsstring :=
  match l with
  | [] => []
  | [x] => x
  | x :: rest => x ++ sep ++ join sep rest
  end.

(** WhiteSpace and LineTerminator code points, the ones [trim] strips. *)
Definition is_white_space (c : code_unit) : bool :=
  existsb (N.eqb c)
    [0x09; 0x0A; 0x0B; 0x0C; 0x0D; 0x20; 0xA0; 0x1680;
     0x2000; 0x2001; 0x2002; 0x2003; 0x2004; 0x2005; 0x2006; 0x2007;
     0x2008; 0x2009; 0x200A; 0x2028; 0x2029; 0x202F; 0x205F; 0x3000;
     0xFEFF]%N.

Fixpoint trimStart (s : jsstring) : jsstring :=
  match s with
  | c :: s' => if is_white_space c then trimStart s' else s
  | [] => []
  end.

Definition trimEnd (s : jsstring) : jsstring := rev (trimStart (rev s)).

Definition trim (s : jsstring) : jsstring := trimEnd (trimStart s).

(** Number::toString on a natural number below 10^21: its decimal digits. *)
Definition Number_toString (n : N) : jsstring :=
  lit (NilZero.string_of_uint (N.to_uint n)).

(** The code unit of U+2022 BULLET. *)
Definition bullet : code_unit := 0x2022%N.

(** *** Numbers *)

Definition number := float.

(** The real value of a finite number is [m * 2^e].  [nearest_scaled m e f]
    is the integer [n] for which [n / 10^f - m * 2^e] is as close to zero
    as possible, the larger one when there are two. *)
Definition nearest_scaled (m : positive) (e : Z) (f : nat) : N :=
  let scaled := (Npos m * 10 ^ N.of_nat f)%N in
  match e with
  | Z0 => scaled
  | Zpos p => (scaled * 2 ^ Npos p)%N
  | Zneg p => ((2 * scaled + 2 ^ Npos p) / 2 ^ (Npos p + 1))%N
  end.

(** [10^21 <= m * 2^e]. *)
Definition at_least_1e21 (m : positive) (e : Z) : bool :=
  match e with
  | Zneg p => (10 ^ 21 * 2 ^ Npos p <=? Npos m)%N
  | _ => (10 ^ 21 <=? Npos m * 2 ^ Z.to_N e)%N
  end.

(** The digits of [n] with a decimal point before the last [f] of them,
    padded with zeros on the left up to [f + 1] digits. *)
Definition fixed_notation (n : N) (f : nat) : jsstring :=
  let m := Number_toString n in
  if (f =? 0)%nat then m
  else
    let m := if (length m <=? f)%nat
             then repeat 48%N (f + 1 - length m) ++ m else m in
    let k := length m in
    firstn (k - f) m ++ lit "." ++ skipn (k - f) m.

(** The number value of a natural number: round to nearest, ties to even. *)
Definition number_of_N (y : N) : spec_float :=
  binary_normalize prec emax (Z.of_N y) 0 false.

(** Number::toString prints the fewest digits [k] for which some [s] of
    [k] digits has [s * 10^(n-k)] round to [x], and the [s] nearest to [x]
    among those.  [X] is the real value of [x], an integer of [d] digits;
    the result is [(s, n)]. *)
Fixpoint shortest_digits (x : spec_float) (X : N) (d k fuel : nat) : N * nat :=
  match fuel with
  | O => (X, d)
  | S fuel' =>
      let p := (10 ^ N.of_nat (d - k))%N in
      let s0 := (X / p)%N in
      let s1 := (s0 + 1)%N in
      let ok0 := SFeqb (number_of_N (s0 * p)) x in
      let ok1 := SFeqb (number_of_N (s1 * p)) x in
      let nearer0 := (X - s0 * p <=? s1 * p - X)%N in
      if ok0 && (negb ok1 || nearer0) then (s0, d)
      else if ok1 then
        if (s1 =? 10 ^ N.of_nat k)%N then (1%N, S d) else (s1, d)
      else shortest_digits x X d (S k) fuel'
  end.

(** Number::toString of a finite number [m * 2^e >= 10^21], which is an
    integer: exponential notation. *)
Definition toString_large (m : positive) (e : Z) : jsstring :=
  let X := (Npos m * 2 ^ Z.to_N e)%N in
  let d := length (Number_toString X) in
  let '(s, n) := shortest_digits (S754_finite false m e) X d 1 d in
  let expo := lit "e+" ++ Number_toString (N.of_nat (n - 1)) in
  match Number_toString s with
  | [c] => c :: expo
  | c :: rest => c :: lit "." ++ rest ++ expo
  | [] => expo
  end.

(** Number.prototype.toFixed(f), for [0 <= f <= 100]. *)
Definition toFixed (x : number) (f : nat) : jsstring :=
  match Prim2SF x with
  | S754_nan => lit "NaN"
  | S754_infinity s => if s then lit "-Infinity" else lit "Infinity"
  | S754_zero _ => fixed_notation 0 f
  | S754_finite s m e =>
      (if s then lit "-" else []) ++
      (if at_least_1e21 m e then toString_large m e
       else fixed_notation (nearest_scaled m e f) f)
  end.

(** The numbers [toFixed] prints in fixed notation: the finite ones below
    10^21 in magnitude. *)
Definition fixed_range (x : number) : bool :=
  match Prim2SF x with
  | S754_zero _ => true
  | S754_finite _ m e => negb (at_least_1e21 m e)
  | _ => false
  end.

End JS.
Import JS.

(* ================================================================== *)
(** ** Number::toString *)

Module NumberToString.

(** [2^e] and [10^p] for an exponent that may be negative, as the pair of
    a numerator and a denominator one of which is 1. *)
Definition pow_pos (b : N) (z : Z) : N := (b ^ Z.to_N z)%N.
Definition pow_neg (b : N) (z : Z) : N := (b ^ Z.to_N (- z))%N.

(** The order of [s * 10^p] and [b * 2^e]. *)
Definition compare_scaled (s : N) (p : Z) (b : N) (e : Z) : comparison :=
  (s * pow_pos 10 p * pow_neg 2 e ?= b * pow_pos 2 e * pow_neg 10 p)%N.

(** Whether the real number [s * 10^p] rounds, to nearest and ties to
    even, to the binary64 number [m * 2^e]: it lies between the midpoints
    to the two neighbours, which count when [m] is even. *)
Definition rounds_to (m : positive) (e : Z) (s : N) (p : Z) : bool :=
  let boundary := ((Npos m =? 2 ^ 52)%N && (-1074 <? e)%Z)%bool in
  let low := (4 * Npos m - (if boundary then 1 else 2))%N in
  let high := (4 * Npos m + 2)%N in
  match compare_scaled s p low (e - 2), compare_scaled s p high (e - 2) with
  | Gt, Lt => true
  | Eq, _ | _, Eq => N.even (Npos m)
  | _, _ => false
  end.

(** The integer [n] with [10^(n-1) <= m * 2^e < 10^n]. *)
Definition decimal_exponent (m : positive) (e : Z) : Z :=
  let j := if (Npos m * pow_pos 2 e <? pow_neg 2 e)%N then 400%Z else 0%Z in
  let scaled := (Npos m * pow_pos 2 e * pow_pos 10 j / pow_neg 2 e)%N in
  (Z.of_nat (length (Number_toString scaled)) - j)%Z.

(** The digits [s] and the exponent [n] of Number::toString: the fewest
    digits [k] for which some [s] of [k] digits has [s * 10^(n-k)] round to
    [m * 2^e], the [s] nearest to it among those, the even one of two. *)
Fixpoint shortest (m : positive) (e n : Z) (k : nat) (fuel : nat) : N * Z :=
  let p := (n - Z.of_nat k)%Z in
  let s0 := (Npos m * pow_pos 2 e * pow_neg 10 p
             / (pow_neg 2 e * pow_pos 10 p))%N in
  let s1 := (s0 + 1)%N in
  let ok0 := rounds_to m e s0 p in
  let ok1 := rounds_to m e s1 p in
  let x := (Npos m * pow_pos 2 e * pow_neg 10 p)%N in
  let d0 := (x - s0 * pow_pos 10 p * pow_neg 2 e)%N in
  let d1 := (s1 * pow_pos 10 p * pow_neg 2 e - x)%N in
  let up := if (d0 =? d1)%N then N.odd s0 else (d1 <? d0)%N in
  let take1 := ok1 && (negb ok0 || up) in
  if ok0 || ok1 then
    if take1 then
      if (s1 =? 10 ^ N.of_nat k)%N then (1%N, (n + 1)%Z) else (s1, n)
    else (s0, n)
  else
    match fuel with
    | O => (s0, n)
    | S fuel' => shortest m e n (S k) fuel'
    end.

(** Number::toString of the positive finite number [m * 2^e]. *)
Definition toString_finite (m : positive) (e : Z) : jsstring :=
  let '(s, n) := shortest m e (decimal_exponent m e) 1 20 in
  let digits := Number_toString s in
  let k := Z.of_nat (length digits) in
  let zeros (z : Z) := repeat 48%N (Z.to_nat z) in
  if ((k <=? n) && (n <=? 21))%Z then digits ++ zeros (n - k)%Z
  else if ((0 <? n) && (n <=? 21))%Z then
    firstn (Z.to_nat n) digits ++ lit "." ++ skipn (Z.to_nat n) digits
  else if ((-6 <? n) && (n <=? 0))%Z then
    lit "0." ++ zeros (- n)%Z ++ digits
  else
    let exponent :=
      lit "e" ++ (if (n - 1 <? 0)%Z then lit "-" else lit "+")
      ++ Number_toString (Z.to_N (Z.abs (n - 1))) in
    match digits with
    | [d] => d :: exponent
    | d :: rest => d :: lit "." ++ rest ++ exponent
    | [] => exponent
    end.

End NumberToString.

(** [ToString] of a number, as a template literal applies it. *)
Definition ToString (x : number) : jsstring :=
  match Prim2SF x with
  | S754_nan => lit "NaN"
  | S754_zero _ => lit "0"
  | S754_infinity s => if s then lit "-Infinity" else lit "Infinity"
  | S754_finite s m e =>
      (if s then lit "-" else []) ++ NumberToString.toString_finite m e
  end.
Arguments ToString x : simpl never.

(* ================================================================== *)
(** ** Rendered trees *)

Module React.

Inductive attr :=
| AStr (s : jsstring)
| ABool (b : bool).

(** What a component renders: text, a number, or an element (an HTML tag
    or a component of a library) with its properties and children.  A
    child that JSX drops ([false], [null], [undefined]) is no child. *)
Inductive node :=
| Text (s : jsstring)
| Num (n : N)
| Element (tag : string) (props : list (string * attr)) (children : list node).

Definition children (n : node) : list node :=
  match n with
  | Element _ _ kids => kids
  | _ => []
  end.

Definition prop (name : string) (n : node) : option attr :=
  match n with
  | Element _ props _ =>
      option_map snd (find (fun p => String.eqb (fst p) name) props)
  | _ => None
  end.

(** The text a tree shows, in document order. *)
Fixpoint textContent (n : node) : jsstring :=
  match n with
  | Text s => s
  | Num k => Number_toString k
  | Element _ _ kids => flat_map textContent kids
  end.

(** The elements with a given tag in a tree, in document order. *)
Fixpoint select (tag : string) (n : node) : list node :=
  match n with
  | Element t _ kids =>
      (if String.eqb t tag then [n] else []) ++ flat_map (select tag) kids
  | _ => []
  end.

(** [cond && <element>] as a list of children. *)
Definition when (cond : bool) (n : node) : list node :=
  if cond then [n] else [].

(** An icon of lucide-react. *)
Definition icon (name : string) : node := Element name [] [].

Definition txt (s : string) : node := Text (lit s).
Arguments txt s%_string.

End React.
Import React.

(* ================================================================== *)
(** ** The payloads of the backend *)

(** [POST /upload], on success. *)
Record upload_data := {
  title : jsstring;
  chunks_processed : number;
  authors : list jsstring
}.

(** [GET /stats]. *)
Record stats_data := {
  papers_processed : N;
  stats_chunks_processed : N;
  vectorizer_fitted : bool
}.

(** An entry of [vector_context]. *)
Record vector_entry := {
  paper_id : jsstring;
  text : jsstring;
  similarity : number
}.

(** The [data] of an entry of [graph_context]: a paper has an id, a title
    and maybe authors; a relationship has a type and goes from a paper to
    another node. *)
Record graph_data := {
  data_id : jsstring;
  data_title : jsstring;
  data_authors : option (list jsstring);
  data_from : jsstring;
  data_to : jsstring;
  data_type : jsstring
}.

Record graph_item := {
  item_type : jsstring;
  data : graph_data
}.

(** [POST /ask], on success. *)
Record ask_data := {
  answer : jsstring;
  vector_context : list vector_entry;
  graph_context : list graph_item
}.

(** What the handlers read of a thrown value: [error.response], with its
    [status] and [data.detail], each of which may be missing. *)
Record error_data := { detail : option jsstring }.

Record error_response := {
  status : N;
  response_data : option error_data
}.

Record js_error := { response : option error_response }.

(** The status the upload widget reports; [details] is not always set. *)
Record upload_status := {
  status_type : jsstring;
  message : jsstring;
  details : option jsstring
}.

(** A file of a drop or of the file picker. *)
Record File := {
  file_name : jsstring;
  file_type : jsstring
}.

(* ================================================================== *)
(** ** ResultsDisplay.jsx *)

Module ResultsDisplay.

Section Render.

Variable results : ask_data.

Definition is_type (t : string) (item : graph_item) : bool :=
  str_eqb (item_type item) (lit t).

Definition renderAnswer : node :=
  Element "div" [] [
    Element "div" [] [
      Element "div" [] [
        Element "div" [] [
          icon "Brain";
          Element "h3" [] [txt "AI Analysis"] ];
        Element "button" [("title", AStr (lit "Copy analysis"))] [
          icon "Clipboard" ] ];
      Element "p" [] [Text (answer results)] ];
    Element "div" [] [
      Element "div" [] [
        Element "div" [] [
          icon "BarChart3";
          Element "span" [] [txt "Semantic Search"] ];
        Element "p" [] [
          txt "Found ";
          Num (N.of_nat (length (vector_context results)));
          txt " relevant text passages" ] ];
      Element "div" [] [
        Element "div" [] [
          icon "Link";
          Element "span" [] [txt "Knowledge Graph"] ];
        Element "p" [] [
          txt "Analyzed ";
          Num (N.of_nat (length (filter (is_type "paper") (graph_context results))));
          txt " research papers" ] ] ] ].

(** The body of the [map] over [vector_context]. *)
Definition renderPassage (result : vector_entry) : node :=
  Element "div" [] ([
    Element "div" [] [
      Element "span" [] [
        txt "Relevance: ";
        Text (toFixed (similarity result * 100)%float 1);
        txt "%" ];
      Element "span" [] [
        txt "Paper: ";
        Text (slice (paper_id result) 0 8);
        txt "..." ] ];
    Element "p" [] [
      Text (if (400 <? length (text result))%nat
            then slice (text result) 0 400 ++ lit "..."
            else text result) ] ]
    ++ when (400 <? length (text result))%nat
         (Element "button" [] [txt "Show full text"])).

Definition renderVectorContext : node :=
  Element "div" [] (
    Element "h3" [] [
      icon "BarChart3";
      txt "Semantic Search Results (";
      Num (N.of_nat (length (vector_context results)));
      txt " relevant passages)" ]
    :: map renderPassage (vector_context results)).

(** The body of the [map] over the relationships of a paper. *)
Definition renderConnection (rel : graph_item) : node :=
  Element "div" [] [
    Element "span" [] [
      Text (data_type (data rel));
      txt ": ";
      Text (slice (data_to (data rel)) 0 8);
      txt "..." ] ].

Definition connections (relationships : list graph_item) (paper : graph_item)
  : list graph_item :=
  filter (fun rel => str_eqb (data_from (data rel)) (data_id (data paper)))
    relationships.

(** The body of the [map] over the papers. *)
Definition renderPaper (relationships : list graph_item) (paper : graph_item)
  : node :=
  Element "div" [] ([
    Element "div" [] [
      icon "FileText";
      Element "h4" [] [Text (data_title (data paper))] ] ]
    ++ match data_authors (data paper) with
       | Some names =>
           when (0 <? length names)%nat
             (Element "div" [] [
                icon "Users";
                Element "span" [] [
                  Element "strong" [] [txt "Authors:"];
                  txt " ";
                  Text (join (lit ", ") names) ] ])
       | None => []
       end
    ++ [
    Element "div" [] [
      Element "h5" [] [icon "Link"; txt "Knowledge Connections:"];
      Element "div" [] (
        map renderConnection (connections relationships paper)
        ++ when (length (connections relationships paper) =? 0)%nat
             (Element "p" [] [txt "No direct connections found"])) ] ]).

Definition renderGraphContext : node :=
  let papers := filter (is_type "paper") (graph_context results) in
  let relationships := filter (is_type "relationship") (graph_context results) in
  Element "div" [] [
    Element "div" [] (
      Element "h3" [] [
        icon "FileText";
        txt "Research Papers Analyzed (";
        Num (N.of_nat (length papers));
        txt ")" ]
      :: map (renderPaper relationships) papers) ].

Definition tabs : list (string * string * string) :=
  [ ("answer", "AI Analysis", "Brain");
    ("vector", "Semantic Results", "BarChart3");
    ("graph", "Knowledge Graph", "Link") ]%string.

Definition ResultsDisplay (activeTab : jsstring) : node :=
  Element "div" [] [
    Element "div" [] [
      Element "nav" []
        (map (fun '(id, label, IconComponent) =>
                Element "button" [] [icon IconComponent; txt label])
             tabs) ];
    Element "div" []
      (when (str_eqb activeTab (lit "answer")) renderAnswer
       ++ when (str_eqb activeTab (lit "vector")) renderVectorContext
       ++ when (str_eqb activeTab (lit "graph")) renderGraphContext) ].

End Render.

End ResultsDisplay.

(* ================================================================== *)
(** ** StatsPanel.jsx *)

Module StatsPanel.

Definition StatsPanel (stats : option stats_data)
  (uploadStatus : option upload_status) : node :=
  Element "div" [] [
    Element "h3" [] [icon "BarChart3"; txt "System Status"];
    Element "div" [] ([
      Element "div" [] [
        Element "div" [] [
          icon "Database";
          Element "span" [] [txt "Neo4j Database"] ];
        Element "span" [] [txt "Connected"] ];
      Element "div" [] [
        Element "div" [] [
          icon "Cpu";
          Element "span" [] [txt "Vector Engine"] ];
        Element "span" [] [txt "Ready"] ] ]
      ++ match uploadStatus with
         | Some st =>
             when (str_eqb (status_type st) (lit "success"))
               (Element "div" [] ([
                  Element "div" [] [
                    icon "FileText";
                    Element "span" [] [txt "Last Upload"] ];
                  Element "p" [] [Text (message st)] ]
                  ++ match details st with
                     | Some d =>
                         if truthy d then [Element "p" [] [Text d]]
                         else [Text d]
                     | None => []
                     end))
         | None => []
         end
      ++ match stats with
         | Some st => [
             Element "div" [] [
               Element "h4" [] [txt "SYSTEM STATS"];
               Element "div" [] [
                 Element "div" [] [txt "Papers:"];
                 Element "div" [] [Num (papers_processed st)];
                 Element "div" [] [txt "Chunks:"];
                 Element "div" [] [Num (stats_chunks_processed st)];
                 Element "div" [] [txt "Vectorizer:"];
                 Element "div" [] [
                   if vectorizer_fitted st then txt "Trained"
                   else txt "Ready" ] ] ] ]
         | None => []
         end);
    Element "div" [] [
      Element "h4" [] [Text (0xD83D :: 0xDCA1 :: lit " PRO TIP")%N];
      Element "p" [] [
        Text (lit "Ask questions like: " ++ [34%N]
              ++ lit "What is batch normalization?" ++ [34%N] ++ lit " or "
              ++ [34%N] ++ lit "Summarize the key findings" ++ [34%N]) ] ] ].

End StatsPanel.

(* ================================================================== *)
(** ** The state of the components and the effects of their handlers *)

Inductive request_body :=
| NoBody
| FormData (fields : list (jsstring * File))
| Json_question (question : jsstring).

(** A request of axios. *)
Record request := {
  method : string;
  url : string;
  body : request_body
}.

(** What a handler does that is seen outside the components' state, and
    the calls of the callbacks the components get as props. *)
Inductive effect :=
| PreventDefault
| Request (r : request)
| Console_error (label : jsstring) (error : js_error)
| Alert (msg : jsstring)
| Clipboard_writeText (text : jsstring)
| Call_onUploadStatus (st : upload_status)
| Call_onStatsUpdate (st : stats_data)
| Call_onResults (r : ask_data)
| Call_onLoading (b : bool).

(** The [useState] cells of [App]. *)
Record App_state := {
  results : option ask_data;
  loading : bool;
  activeTab : jsstring;
  uploadStatus : option upload_status;
  stats : option stats_data
}.

(** The [useState] cells of [FileUpload]. *)
Record FileUpload_state := {
  isDragging : bool;
  isUploading : bool
}.

Record world := {
  app : App_state;
  fileUpload : FileUpload_state;
  question : jsstring;          (* the [useState] cell of [QuestionForm] *)
  trace : list effect           (* oldest first *)
}.

(** How a request ends: the promise of axios resolves with the data of
    the response, or rejects. *)
Inductive reply (A : Type) :=
| Resolved (response_data : A)
| Rejected (error : js_error).
Arguments Rejected {A} error.

(** The backend behind the three endpoints. *)
Record backend := {
  upload : list (jsstring * File) -> reply upload_data;
  get_stats : reply stats_data;
  ask : jsstring -> reply ask_data
}.

Module Monad.

Inductive outcome (A : Type) :=
| Returned (a : A)
| Thrown (error : js_error).
Arguments Thrown {A} error.

(** A computation of a handler. *)
Definition js (A : Type) := world -> outcome A * world.

Definition ret {A} (a : A) : js A := fun w => (Returned a, w).

Definition bind {A B} (c : js A) (k : A -> js B) : js B :=
  fun w =>
    match c w with
    | (Returned a, w') => k a w'
    | (Thrown e, w') => (Thrown e, w')
    end.

Definition throw {A} (e : js_error) : js A := fun w => (Thrown e, w).

(** [try { body } catch (error) { handler }]. *)
Definition try_catch {A} (body : js A) (handler : js_error -> js A) : js A :=
  fun w =>
    match body w with
    | (Returned a, w') => (Returned a, w')
    | (Thrown e, w') => handler e w'
    end.

(** [try { body } finally { final }]. *)
Definition try_finally {A} (body : js A) (final : js unit) : js A :=
  fun w =>
    match body w with
    | (r, w') =>
        match final w' with
        | (Returned _, w'') => (r, w'')
        | (Thrown e, w'') => (Thrown e, w'')
        end
    end.

Definition get : js world := fun w => (Returned w, w).

Definition modify (f : world -> world) : js unit :=
  fun w => (Returned tt, f w).

Definition emit (e : effect) : js unit :=
  modify (fun w =>
    {| app := app w; fileUpload := fileUpload w; question := question w;
       trace := trace w ++ [e] |}).

(** [await] on a promise of axios. *)
Definition await {A} (r : reply A) : js A :=
  match r with
  | Resolved a => ret a
  | Rejected e => throw e
  end.

(** The state a handler leaves behind. *)
Definition exec {A} (c : js A) (w : world) : world := snd (c w).

End Monad.
Import Monad.

Declare Scope js_scope.
Delimit Scope js_scope with js.
Notation "x <- c ;; k" := (bind c (fun x => k))
  (at level 61, c at next level, right associativity) : js_scope.
Notation "c ;; k" := (bind c (fun _ => k))
  (at level 61, right associativity) : js_scope.
Open Scope js_scope.

Definition modify_app (f : App_state -> App_state) : js unit :=
  modify (fun w =>
    {| app := f (app w); fileUpload := fileUpload w; question := question w;
       trace := trace w |}).

Definition modify_fileUpload (f : FileUpload_state -> FileUpload_state)
  : js unit :=
  modify (fun w =>
    {| app := app w; fileUpload := f (fileUpload w); question := question w;
       trace := trace w |}).

Definition preventDefault : js unit := emit PreventDefault.

Definition console_error (label : string) (error : js_error) : js unit :=
  emit (Console_error (lit label) error).

Definition alert (msg : jsstring) : js unit := emit (Alert msg).

(** [copyToClipboard] of ResultsDisplay.jsx, the click handler of the
    copy button of the answer. *)
Definition copyToClipboard (text : jsstring) : js unit :=
  emit (Clipboard_writeText text).

(** [error.response?.data?.detail]. *)
Definition detail_of (error : js_error) : option jsstring :=
  match response error with
  | Some r =>
      match response_data r with
      | Some d => detail d
      | None => None
      end
  | None => None
  end.

(** [v || fallback] for a string [v] that may be undefined. *)
Definition or_default (v : option jsstring) (fallback : jsstring) : jsstring :=
  match v with
  | Some s => or_else s fallback
  | None => fallback
  end.

(* ================================================================== *)
(** ** App.jsx: the state setters handed to the components *)

Module Callbacks.

Definition setResults (r : ask_data) : js unit :=
  modify_app (fun a =>
    {| results := Some r; loading := loading a; activeTab := activeTab a;
       uploadStatus := uploadStatus a; stats := stats a |}).

Definition setLoading (b : bool) : js unit :=
  modify_app (fun a =>
    {| results := results a; loading := b; activeTab := activeTab a;
       uploadStatus := uploadStatus a; stats := stats a |}).

Definition setActiveTab (t : jsstring) : js unit :=
  modify_app (fun a =>
    {| results := results a; loading := loading a; activeTab := t;
       uploadStatus := uploadStatus a; stats := stats a |}).

Definition setUploadStatus (st : upload_status) : js unit :=
  modify_app (fun a =>
    {| results := results a; loading := loading a; activeTab := activeTab a;
       uploadStatus := Some st; stats := stats a |}).

Definition setStats (st : stats_data) : js unit :=
  modify_app (fun a =>
    {| results := results a; loading := loading a; activeTab := activeTab a;
       uploadStatus := uploadStatus a; stats := Some st |}).

(** The props [App] passes: [onUploadStatus={setUploadStatus}],
    [onStatsUpdate={setStats}], [onResults={setResults}],
    [onLoading={setLoading}]; every call is recorded in the trace. *)
Definition onUploadStatus (st : upload_status) : js unit :=
  emit (Call_onUploadStatus st) ;; setUploadStatus st.

Definition onStatsUpdate (st : stats_data) : js unit :=
  emit (Call_onStatsUpdate st) ;; setStats st.

Definition onResults (r : ask_data) : js unit :=
  emit (Call_onResults r) ;; setResults r.

Definition onLoading (b : bool) : js unit :=
  emit (Call_onLoading b) ;; setLoading b.

End Callbacks.
Import Callbacks.

(* ================================================================== *)
(** ** FileUpload.jsx *)

Module FileUpload.

Definition setIsDragging (b : bool) : js unit :=
  modify_fileUpload (fun f =>
    {| isDragging := b; isUploading := isUploading f |}).

Definition setIsUploading (b : bool) : js unit :=
  modify_fileUpload (fun f =>
    {| isDragging := isDragging f; isUploading := b |}).

Section Handlers.

Variable net : backend.

(** [axios.post('http://localhost:8000/upload', formData, ...)], awaited. *)
Definition post_upload (formData : list (jsstring * File)) : js upload_data :=
  emit (Request {| method := "POST"; url := "http://localhost:8000/upload";
                   body := FormData formData |}) ;;
  await (upload net formData).

(** [axios.get('http://localhost:8000/stats')], awaited. *)
Definition fetch_stats : js stats_data :=
  emit (Request {| method := "GET"; url := "http://localhost:8000/stats";
                   body := NoBody |}) ;;
  await (get_stats net).

Definition handleFileUpload (file : File) : js unit :=
  let formData := [(lit "file", file)] in
  try_finally
    (try_catch
       (setIsUploading true ;;
        onUploadStatus
          {| status_type := lit "loading";
             message := lit "Uploading and processing PDF...";
             details := None |} ;;
        response <- post_upload formData ;;
        onUploadStatus
          {| status_type := lit "success";
             message := lit "Processed: " ++ title response;
             details :=
               Some (ToString (chunks_processed response)
                     ++ lit " chunks " ++ [bullet] ++ lit " "
                     ++ join (lit ", ") (authors response)) |} ;;
        try_catch
          (statsResponse <- fetch_stats ;;
           onStatsUpdate statsResponse)
          (fun statsError =>
             console_error "Failed to fetch stats:" statsError))
       (fun error =>
          console_error "Upload error:" error ;;
          onUploadStatus
            {| status_type := lit "error";
               message :=
                 or_default (detail_of error)
                   (lit "Upload failed. Please try again.");
               details :=
                 Some match response error with
                      | Some r =>
                          if (status r =? 0)%N then []
                          else lit "Status: " ++ Number_toString (status r)
                      | None => []
                      end |}))
    (setIsUploading false).

Definition handleDragOver : js unit :=
  preventDefault ;; setIsDragging true.

Definition handleDragLeave : js unit :=
  preventDefault ;; setIsDragging false.

(** [files] is [e.dataTransfer.files]. *)
Definition handleDrop (files : list File) : js unit :=
  preventDefault ;;
  setIsDragging false ;;
  match nth_error files 0 with
  | Some file =>
      if (0 <? length files)%nat
         && str_eqb (file_type file) (lit "application/pdf")
      then handleFileUpload file
      else ret tt
  | None => ret tt
  end.

(** [files] is [e.target.files]. *)
Definition handleFileSelect (files : list File) : js unit :=
  match nth_error files 0 with
  | Some file =>
      if str_eqb (file_type file) (lit "application/pdf")
      then handleFileUpload file
      else ret tt
  | None => ret tt
  end.

End Handlers.

Definition FileUpload (st : FileUpload_state) : node :=
  Element "div" [] [
    Element "h2" [] [icon "FileText"; txt "Upload Research Papers"];
    Element "div" [] (
      (if isUploading st then [
         Element "div" [] [
           icon "Loader";
           Element "p" [] [txt "Processing PDF..."];
           Element "p" [] [txt "Extracting text and building knowledge graph"] ] ]
       else [
         icon "Upload";
         Element "p" [] [txt "Drag & drop your PDF here, or click to browse"];
         Element "p" [] [txt "Supports research papers in PDF format"] ])
      ++ [
      Element "input"
        [ ("id", AStr (lit "file-input")); ("type", AStr (lit "file"));
          ("accept", AStr (lit ".pdf")); ("disabled", ABool (isUploading st)) ]
        [] ]);
    Element "div" [] [
      Element "h3" [] [txt "How it works:"];
      Element "ul" []
        (map (fun step => Element "li" [] [Element "div" [] []; txt step])
           [ "Upload academic papers or research PDFs";
             "The system extracts text and creates embeddings";
             "Builds a knowledge graph of authors and concepts";
             "Enables semantic search across all uploaded papers" ]) ] ].

End FileUpload.

(* ================================================================== *)
(** ** QuestionForm.jsx *)

Module QuestionForm.

Definition setQuestion (q : jsstring) : js unit :=
  modify (fun w =>
    {| app := app w; fileUpload := fileUpload w; question := q;
       trace := trace w |}).

Section Handlers.

Variable net : backend.

(** [axios.post('http://localhost:8000/ask', { question })], awaited. *)
Definition post_ask (q : jsstring) : js ask_data :=
  emit (Request {| method := "POST"; url := "http://localhost:8000/ask";
                   body := Json_question q |}) ;;
  await (ask net q).

Definition handleSubmit : js unit :=
  preventDefault ;;
  w <- get ;;
  if negb (truthy (trim (question w))) then ret tt
  else
    try_finally
      (try_catch
         (onLoading true ;;
          response <- post_ask (trim (question w)) ;;
          onResults response)
         (fun error =>
            console_error "Error asking question:" error ;;
            alert (or_default (detail_of error)
                     (lit "Error processing your question. Please try again."))))
      (onLoading false).

End Handlers.

Definition exampleQuestions : list string :=
  [ "What is the main contribution of this paper?";
    "Explain the methodology used in this research";
    "What are the key findings or results?";
    "How does this approach compare to existing methods?";
    "What datasets were used for evaluation?";
    "What are the limitations of this work?" ].

Definition insertExampleQuestion (example : string) : js unit :=
  setQuestion (lit example).

Section Render.

Variable uploadStatus : option upload_status.
Variable question : jsstring.

(** [uploadStatus?.type], compared with a literal. *)
Definition type_is (t : string) : bool :=
  match uploadStatus with
  | Some st => str_eqb (status_type st) (lit t)
  | None => false
  end.

(** The status dots differ by their class names only, which are kept. *)
Definition getStatusIcon : node :=
  let dot c := Element "div" [("className", AStr (lit c))] [] in
  if type_is "success" then dot "w-3 h-3 bg-green-500 rounded-full animate-pulse"
  else if type_is "error" then dot "w-3 h-3 bg-red-500 rounded-full"
  else if type_is "loading" then dot "w-3 h-3 bg-blue-500 rounded-full animate-spin"
  else dot "w-3 h-3 bg-gray-300 rounded-full".

Definition getStatusMessage : jsstring :=
  match uploadStatus with
  | None => lit "Ready to process papers"
  | Some st => message st
  end.

(** [disabled] of the textarea. *)
Definition textarea_disabled : bool :=
  match uploadStatus with
  | None => true
  | Some st => str_eqb (status_type st) (lit "loading")
  end.

(** [disabled] of the submit button. *)
Definition submit_disabled : bool :=
  negb (truthy (trim question))
  || match uploadStatus with
     | None => true
     | Some st => negb (str_eqb (status_type st) (lit "success"))
     end.

Definition QuestionForm : node :=
  Element "div" [] [
    Element "h2" [] [icon "Brain"; txt "Ask a Question"];
    Element "div" [] ([
      Element "div" [] [
        getStatusIcon;
        Element "span" [] [txt "System Status"] ];
      Element "p" [] [Text getStatusMessage] ]
      ++ match uploadStatus with
         | Some st =>
             match details st with
             | Some d =>
                 if truthy d then [Element "p" [] [Text d]] else [Text d]
             | None => []
             end
         | None => []
         end);
    Element "form" [] [
      Element "div" [] [
        Element "label" [("htmlFor", AStr (lit "question"))] [
          txt "Ask about the research:" ];
        Element "textarea"
          [ ("id", AStr (lit "question")); ("value", AStr question);
            ("placeholder",
             AStr (lit "e.g., What is the main contribution of this paper?"));
            ("rows", AStr (lit "4"));
            ("disabled", ABool textarea_disabled) ]
          [] ];
      Element "button"
        [ ("type", AStr (lit "submit"));
          ("disabled", ABool submit_disabled) ]
        [icon "Send"; txt "Analyze Research"] ];
    Element "div" [] [
      Element "h3" [] [icon "Lightbulb"; txt "Example questions:"];
      Element "div" []
        (map (fun example =>
                Element "button" [("type", AStr (lit "button"))]
                  [icon "Sparkles"; txt example])
           exampleQuestions) ] ].

End Render.

End QuestionForm.

(* ================================================================== *)
(** ** Header.jsx and App.jsx *)

Module App.

Definition Header : node :=
  Element "header" [] [
    Element "div" [] [
      Element "div" [] [icon "Brain"];
      Element "h1" [] [txt "GraphRAG Research Assistant"] ];
    Element "p" [] [
      txt "Upload research papers and ask intelligent questions using AI-powered semantic search and knowledge graph technology" ];
    Element "div" [] [
      icon "BookOpen";
      Element "span" [] [
        txt "Powered by Neo4j Knowledge Graphs & Vector Search" ] ] ].

(** The state [useState] starts from. *)
Definition initial : world :=
  {| app := {| results := None; loading := false; activeTab := lit "answer";
               uploadStatus := None; stats := None |};
     fileUpload := {| isDragging := false; isUploading := false |};
     question := [];
     trace := [] |}.

Definition App (w : world) : node :=
  let a := app w in
  Element "div" [] [
    Element "div" [] ([
      Header;
      Element "div" [] [
        Element "div" [] [
          Element "div" [] [
            FileUpload.FileUpload (fileUpload w);
            QuestionForm.QuestionForm (uploadStatus a) (question w) ] ];
        Element "div" [] [
          StatsPanel.StatsPanel (stats a) (uploadStatus a) ] ] ]
      ++ when (loading a)
           (Element "div" [] [
              Element "div" [] [];
              Element "p" [] [txt "Analyzing your question..."];
              Element "p" [] [
                txt "Searching through research papers and knowledge graph" ] ])
      ++ match results a with
         | Some r =>
             when (negb (loading a))
               (ResultsDisplay.ResultsDisplay r (activeTab a))
         | None => []
         end) ].

End App.

(* ================================================================== *)
(** ** What is read off a rendered tree or a trace *)

Module Observe.

Definition is_digit (c : code_unit) : bool := (48 <=? c)%N && (c <=? 57)%N.

(** A decimal numeral with exactly one digit after the point: an optional
    minus sign, one digit or more, a point, one digit. *)
Definition one_decimal_place (s : jsstring) : bool :=
  let unsigned :=
    match s with
    | c :: r => if (c =? 45)%N then r else s
    | [] => s
    end in
  match rev unsigned with
  | d :: dot :: int_part =>
      is_digit d && (dot =? 46)%N && truthy int_part
      && forallb is_digit int_part
  | _ => false
  end.

(** The requests among the effects of a trace. *)
Definition requests (t : list effect) : list request :=
  flat_map (fun e => match e with Request r => [r] | _ => [] end) t.

(** The values [onUploadStatus], [onStatsUpdate] and [onResults] were
    called with. *)
Definition status_reports (t : list effect) : list upload_status :=
  flat_map (fun e => match e with Call_onUploadStatus st => [st] | _ => [] end) t.

Definition stats_updates (t : list effect) : list stats_data :=
  flat_map (fun e => match e with Call_onStatsUpdate d => [d] | _ => [] end) t.

Definition results_calls (t : list effect) : list ask_data :=
  flat_map (fun e => match e with Call_onResults d => [d] | _ => [] end) t.

(** The requests of the three endpoints. *)
Definition upload_request (file : File) : request :=
  {| method := "POST"; url := "http://localhost:8000/upload";
     body := FormData [(lit "file", file)] |}.

Definition stats_request : request :=
  {| method := "GET"; url := "http://localhost:8000/stats"; body := NoBody |}.

Definition ask_request (q : jsstring) : request :=
  {| method := "POST"; url := "http://localhost:8000/ask";
     body := Json_question q |}.

(** The items of a tab that starts with a heading. *)
Definition items (tab : node) : list node := tl (children tab).

(** The last child of an element. *)
Definition last_child (n : node) : node := last (children n) (Text []).

(** The first and the second child of an element. *)
Definition first_child (n : node) : node := hd (Text []) (children n).

Definition second_child (n : node) : node := nth 1 (children n) (Text []).

End Observe.
Import Observe.

(* ================================================================== *)
(** ** Sample payloads and backends *)

Module Samples.

Definition paper_pdf : File :=
  {| file_name := lit "paper.pdf"; file_type := lit "application/pdf" |}.

Definition notes_txt : File :=
  {| file_name := lit "notes.txt"; file_type := lit "text/plain" |}.

Definition uploaded : upload_data :=
  {| title := lit "Batch Normalization"; chunks_processed := 12%float;
     authors := [lit "S. Ioffe"; lit "C. Szegedy"] |}.

Definition some_stats : stats_data :=
  {| papers_processed := 1; stats_chunks_processed := 12;
     vectorizer_fitted := true |}.

Definition an_answer : ask_data :=
  {| answer := lit "It normalizes layer inputs.";
     vector_context :=
       [ {| paper_id := lit "0123456789abcdef"; text := lit "We propose";
            similarity := 0.875%float |};
         {| paper_id := lit "fedcba9876543210"; text := repeat 120%N 401;
            similarity := 0.25%float |} ];
     graph_context :=
       [ {| item_type := lit "paper";
            data := {| data_id := lit "p1"; data_title := lit "Batch Normalization";
                       data_authors := Some [lit "S. Ioffe"; lit "C. Szegedy"];
                       data_from := []; data_to := []; data_type := [] |} |};
         {| item_type := lit "relationship";
            data := {| data_id := []; data_title := []; data_authors := None;
                       data_from := lit "p1"; data_to := lit "author-ioffe";
                       data_type := lit "AUTHORED_BY" |} |};
         {| item_type := lit "paper";
            data := {| data_id := lit "p2"; data_title := lit "Dropout";
                       data_authors := None;
                       data_from := []; data_to := []; data_type := [] |} |} ] |}.

(** A request that got no response. *)
Definition network_error : js_error := {| response := None |}.

(** A response with a status and a detail. *)
Definition bad_request : js_error :=
  {| response :=
       Some {| status := 400;
               response_data :=
                 Some {| detail := Some (lit "Only PDF files are supported") |} |} |}.

(** A response with a status and an empty detail. *)
Definition empty_detail : js_error :=
  {| response :=
       Some {| status := 400;
               response_data := Some {| detail := Some [] |} |} |}.

Definition healthy : backend :=
  {| upload := fun _ => Resolved uploaded;
     get_stats := Resolved some_stats;
     ask := fun _ => Resolved an_answer |}.


Definition failing (error : js_error) : backend :=
  {| upload := fun _ => Rejected error;
     get_stats := Rejected error;
     ask := fun _ => Rejected error |}.

(** The state after a question was typed. *)
Definition asking (q : string) : world :=
  {| app := app App.initial; fileUpload := fileUpload App.initial;
     question := lit q; trace := [] |}.

End Samples.

(* ================================================================== *)
(** ** The clicks on the tabs and on the example questions *)

Module Clicks.

(** [App] passes [onTabChange={setActiveTab}]; a tab button calls it with
    the id of its tab. *)
Definition onTabChange (id : jsstring) : js unit := setActiveTab id.

(** The click on the tab with a given id. *)
Definition clickTab (id : string) : js unit := onTabChange (lit id).

(** A string of whitespace only, the empty one included. *)
Definition is_blank (s : jsstring) : bool := forallb is_white_space s.

(** The messages of the alerts of a trace. *)
Definition alerts (t : list effect) : list jsstring :=
  flat_map (fun e => match e with Alert msg => [msg] | _ => [] end) t.

(** What the page shows below the header and the two columns. *)
Definition below_columns (page : node) : list node :=
  skipn 2 (children (first_child page)).

End Clicks.
Import Clicks.

(* ================================================================== *)
(** ** The upload handler, turn by turn *)

(** An [async] function runs until its next [await] and then gives way:
    other handlers may run and change the state of the page before the
    promise settles and the function goes on.  Between two awaits it runs
    to completion.  The handler of FileUpload.jsx is embedded here with
    its two awaits as the points where it gives way. *)
Module Async.

(** Where a call stands when it gives way: it has ended, or it awaits the
    response of a request and goes on, once that has settled, in the
    state the page has then. *)
Inductive suspended (A : Type) : Type :=
| Settled (o : outcome A)
| Awaiting_upload (formData : list (jsstring * File))
    (resume : reply upload_data -> world -> suspended A * world)
| Awaiting_stats
    (resume : reply stats_data -> world -> suspended A * world).
Arguments Awaiting_stats {A} resume.

(** A computation with awaits. *)
Definition async (A : Type) := world -> suspended A * world.

(** A computation without awaits. *)
Definition lift {A} (c : js A) : async A :=
  fun w => let (o, w') := c w in (Settled o, w').

Fixpoint and_then {A B} (t : suspended A) (k : A -> async B) (w : world)
  : suspended B * world :=
  match t with
  | Settled (Returned a) => k a w
  | Settled (Thrown e) => (Settled (Thrown e), w)
  | Awaiting_upload formData resume =>
      (Awaiting_upload formData
         (fun r w1 => let (t', w1') := resume r w1 in and_then t' k w1'), w)
  | Awaiting_stats resume =>
      (Awaiting_stats
         (fun r w1 => let (t', w1') := resume r w1 in and_then t' k w1'), w)
  end.

Definition bind {A B} (c : async A) (k : A -> async B) : async B :=
  fun w => let (t, w') := c w in and_then t k w'.

Fixpoint catching {A} (t : suspended A) (handler : js_error -> async A)
  (w : world) : suspended A * world :=
  match t with
  | Settled (Returned a) => (Settled (Returned a), w)
  | Settled (Thrown e) => handler e w
  | Awaiting_upload formData resume =>
      (Awaiting_upload formData
         (fun r w1 =>
            let (t', w1') := resume r w1 in catching t' handler w1'), w)
  | Awaiting_stats resume =>
      (Awaiting_stats
         (fun r w1 =>
            let (t', w1') := resume r w1 in catching t' handler w1'), w)
  end.

(** [try { body } catch (error) { handler }]. *)
Definition try_catch {A} (body : async A) (handler : js_error -> async A)
  : async A :=
  fun w => let (t, w') := body w in catching t handler w'.

Fixpoint finishing {A} (t : suspended A) (final : js unit) (w : world)
  : suspended A * world :=
  match t with
  | Settled o =>
      match final w with
      | (Returned _, w') => (Settled o, w')
      | (Thrown e, w') => (Settled (Thrown e), w')
      end
  | Awaiting_upload formData resume =>
      (Awaiting_upload formData
         (fun r w1 =>
            let (t', w1') := resume r w1 in finishing t' final w1'), w)
  | Awaiting_stats resume =>
      (Awaiting_stats
         (fun r w1 =>
            let (t', w1') := resume r w1 in finishing t' final w1'), w)
  end.

(** [try { body } finally { final }], for a block [final] without await. *)
Definition try_finally {A} (body : async A) (final : js unit) : async A :=
  fun w => let (t, w') := body w in finishing t final w'.

(** The value of a settled promise, or the error thrown at the await. *)
Definition settled {A} (r : reply A) : outcome A :=
  match r with
  | Resolved a => Returned a
  | Rejected e => Thrown e
  end.

(** [await axios.post('http://localhost:8000/upload', formData, ...)]. *)
Definition post_upload (formData : list (jsstring * File))
  : async upload_data :=
  fun w =>
    (Awaiting_upload formData (fun r w1 => (Settled (settled r), w1)),
     exec (emit (Request {| method := "POST";
                            url := "http://localhost:8000/upload";
                            body := FormData formData |})) w).

(** [await axios.get('http://localhost:8000/stats')]. *)
Definition fetch_stats : async stats_data :=
  fun w =>
    (Awaiting_stats (fun r w1 => (Settled (settled r), w1)),
     exec (emit (Request {| method := "GET";
                            url := "http://localhost:8000/stats";
                            body := NoBody |})) w).

Declare Scope async_scope.
Delimit Scope async_scope with async.
Notation "x <- c ;; k" := (bind c (fun x => k))
  (at level 61, c at next level, right associativity) : async_scope.
Notation "c ;; k" := (bind c (fun _ => k))
  (at level 61, right associativity) : async_scope.

Definition handleFileUpload (file : File) : async unit :=
  let formData := [(lit "file", file)] in
  try_finally
    (try_catch
       (lift (FileUpload.setIsUploading true) ;;
        lift (onUploadStatus
                {| status_type := lit "loading";
                   message := lit "Uploading and processing PDF...";
                   details := None |}) ;;
        response <- post_upload formData ;;
        lift (onUploadStatus
                {| status_type := lit "success";
                   message := lit "Processed: " ++ title response;
                   details :=
                     Some (ToString (chunks_processed response)
                           ++ lit " chunks " ++ [bullet] ++ lit " "
                           ++ join (lit ", ") (authors response)) |}) ;;
        try_catch
          (statsResponse <- fetch_stats ;;
           lift (onStatsUpdate statsResponse))
          (fun statsError =>
             lift (console_error "Failed to fetch stats:" statsError)))%async
       (fun error =>
          lift (console_error "Upload error:" error ;;
                onUploadStatus
                  {| status_type := lit "error";
                     message :=
                       or_default (detail_of error)
                         (lit "Upload failed. Please try again.");
                     details :=
                       Some match response error with
                            | Some r =>
                                if (status r =? 0)%N then []
                                else lit "Status: "
                                     ++ Number_toString (status r)
                            | None => []
                            end |})%js))
    (FileUpload.setIsUploading false).

(** The next turn of a call: when the promise it awaits has settled with
    the answer of the backend, the call goes on in the state [w] the page
    has by then, up to its next await or to its end. *)
Definition resume {A} (net : backend) (t : suspended A) (w : world)
  : suspended A * world :=
  match t with
  | Settled o => (Settled o, w)
  | Awaiting_upload formData k => k (upload net formData) w
  | Awaiting_stats k => k (get_stats net) w
  end.

(** The request whose response a call awaits. *)
Definition pending_request {A} (t : suspended A) : option request :=
  match t with
  | Settled _ => None
  | Awaiting_upload formData _ =>
      Some {| method := "POST"; url := "http://localhost:8000/upload";
              body := FormData formData |}
  | Awaiting_stats _ =>
      Some {| method := "GET"; url := "http://localhost:8000/stats";
              body := NoBody |}
  end.

(** A call all of whose turns follow one another with nothing in
    between. *)
Fixpoint settle {A} (net : backend) (t : suspended A) (w : world)
  : outcome A * world :=
  match t with
  | Settled o => (o, w)
  | Awaiting_upload formData k =>
      let (t', w') := k (upload net formData) w in settle net t' w'
  | Awaiting_stats k =>
      let (t', w') := k (get_stats net) w in settle net t' w'
  end.

Definition uninterrupted {A} (net : backend) (c : async A) : js A :=
  fun w => let (t, w') := c w in settle net t w'.

(** What a turn of the upload handler never writes: the drag flag, the
    question, the results, the loading flag and the active tab. *)
Definition keeps_the_rest (before after : world) : Prop :=
  isDragging (fileUpload after) = isDragging (fileUpload before)
  /\ question after = question before
  /\ results (app after) = results (app before)
  /\ loading (app after) = loading (app before)
  /\ activeTab (app after) = activeTab (app before).

End Async.

Import ResultsDisplay StatsPanel QuestionForm FileUpload.

(** Unfolds the monad and the setters in the goal. *)
Ltac run :=
  unfold exec, handleFileUpload, handleDrop, handleFileSelect, handleSubmit,
    post_upload, fetch_stats, post_ask,
    onUploadStatus, onStatsUpdate, onResults, onLoading,
    setUploadStatus, setStats, setResults, setLoading,
    setIsUploading, setIsDragging, console_error, alert, preventDefault,
    try_finally, try_catch, bind, emit, modify_app, modify_fileUpload,
    modify, get, ret in *;
  cbn [fst snd trace app fileUpload question uploadStatus stats results
       loading activeTab isDragging isUploading] in *.

(** Unfolds the turns of the upload handler in the goal. *)
Ltac turns :=
  unfold Async.resume, Async.handleFileUpload, Async.try_finally,
    Async.try_catch, Async.bind, Async.lift, Async.post_upload,
    Async.fetch_stats, Async.pending_request, Async.uninterrupted,
    Async.keeps_the_rest,
    onUploadStatus, onStatsUpdate, setUploadStatus, setStats,
    setIsUploading, console_error, Monad.bind, emit, modify_app,
    modify_fileUpload, modify, exec in *;
  cbn [fst snd Async.and_then Async.catching Async.finishing Async.settle
       Async.settled trace app fileUpload question uploadStatus stats
       results loading activeTab isDragging isUploading] in *.

(* ================================================================== *)
(** * Properties *)

Example lit_ok : lit "ab" = [97; 98]%N.
Proof. reflexivity. Qed.

Example trim_ok : trim (lit "  a b ") = lit "a b".
Proof. reflexivity. Qed.

Example toString_ok : Number_toString 120 = lit "120".
Proof. reflexivity. Qed.

Example toFixed_half_up : toFixed (0.25 * 100)%float 1 = lit "25.0"
  /\ toFixed 0.25%float 1 = lit "0.3" /\ toFixed (-0.0625)%float 1 = lit "-0.1".
Proof. repeat split; vm_compute; reflexivity. Qed.

Example toFixed_large : toFixed 0x1p+70%float 1 = lit "1.1805916207174113e+21".
Proof. vm_compute. reflexivity. Qed.

(** ** Strings *)

Lemma str_eqb_eq (a b : jsstring) : str_eqb a b = true <-> a = b.
Proof.
  revert b; induction a as [|x a IH]; intros [|y b]; simpl;
    try (split; [discriminate | congruence]); try tauto.
  rewrite andb_true_iff, N.eqb_eq, IH.
  split; [intros [-> ->]; reflexivity | intros [= -> ->]; auto].
Qed.

Lemma str_eqb_neq (a b : jsstring) : str_eqb a b = false <-> a <> b.
Proof.
  rewrite <- str_eqb_eq. destruct (str_eqb a b); split; congruence.
Qed.

Lemma str_eqb_refl (a : jsstring) : str_eqb a a = true.
Proof. apply str_eqb_eq; reflexivity. Qed.

Lemma truthy_false (s : jsstring) : truthy s = false <-> s = [].
Proof. destruct s; simpl; split; congruence. Qed.

Lemma truthy_true (s : jsstring) : truthy s = true <-> s <> [].
Proof. destruct s; simpl; split; congruence. Qed.

Lemma slice_from_start (s : jsstring) (n : nat) : slice s 0 n = firstn n s.
Proof. unfold slice. rewrite Nat.sub_0_r. reflexivity. Qed.

(** ** The digits of a number *)

Lemma digits_of_uint (d : Decimal.uint) :
  forallb is_digit (lit (NilEmpty.string_of_uint d)) = true.
Proof. induction d; simpl; auto. Qed.

Lemma Number_toString_digits (n : N) :
  forallb is_digit (Number_toString n) = true.
Proof.
  unfold Number_toString, NilZero.string_of_uint.
  destruct (N.to_uint n); try apply (digits_of_uint (Decimal.D0 _)) || reflexivity;
    match goal with |- context [NilEmpty.string_of_uint ?d] =>
      apply (digits_of_uint d) end.
Qed.

Lemma Number_toString_nonempty (n : N) : Number_toString n <> [].
Proof.
  unfold Number_toString, NilZero.string_of_uint.
  destruct (N.to_uint n); simpl; discriminate.
Qed.

Lemma forallb_rev {A} (f : A -> bool) (l : list A) :
  forallb f (rev l) = forallb f l.
Proof.
  induction l as [|x l IH]; simpl; auto.
  rewrite forallb_app, IH; simpl. rewrite andb_true_r. apply andb_comm.
Qed.

(** A list of two elements or more is cut before its last element by
    [firstn] and [skipn] at its length minus one. *)
Lemma cut_before_last {A} (l : list A) :
  2 <= length l ->
  exists a d, l = a ++ [d] /\ a <> []
    /\ firstn (length l - 1) l = a /\ skipn (length l - 1) l = [d].
Proof.
  intros Hlen.
  destruct (exists_last (l := l)) as (a & d & ->).
  { destruct l; simpl in *; [lia | discriminate]. }
  rewrite length_app in *; simpl in *.
  replace (length a + 1 - 1) with (length a + 0) by lia.
  exists a, d. repeat split.
  - destruct a; simpl in *; [lia | discriminate].
  - rewrite firstn_app_2. simpl. apply app_nil_r.
  - rewrite Nat.add_0_r, skipn_app, skipn_all, Nat.sub_diag. reflexivity.
Qed.

(** Fixed notation with one fraction digit: digits, a point, a digit. *)
Lemma fixed_notation_one (n : N) :
  exists a d, fixed_notation n 1 = a ++ [46%N; d]
    /\ a <> [] /\ forallb is_digit a = true /\ is_digit d = true.
Proof.
  unfold fixed_notation.
  pose proof (Number_toString_digits n) as Hd.
  pose proof (Number_toString_nonempty n) as Hne.
  set (m := Number_toString n) in *. clearbody m.
  change (1 =? 0)%nat with false. cbv iota zeta.
  set (m' := if (length m <=? 1)%nat
             then repeat 48%N (1 + 1 - length m) ++ m else m).
  assert (Hm' : forallb is_digit m' = true /\ 2 <= length m').
  { subst m'. destruct (Nat.leb_spec (length m) 1) as [Hle|Hgt].
    - destruct m as [|c [|c' m]]; [congruence | | simpl in Hle; lia].
      simpl in *. split; [exact Hd | lia].
    - split; [assumption | lia]. }
  destruct Hm' as [Hdig Hlen].
  destruct (cut_before_last m' Hlen) as (a & d & Heq & Ha & Hf & Hs).
  rewrite Hf, Hs. exists a, d.
  rewrite Heq, forallb_app in Hdig. apply andb_true_iff in Hdig as [Hda Hdd].
  simpl in Hdd. rewrite andb_true_r in Hdd.
  repeat split; auto.
Qed.

Lemma one_decimal_place_intro (sign a : jsstring) (d : code_unit) :
  sign = [] \/ sign = [45%N] ->
  a <> [] -> forallb is_digit a = true -> is_digit d = true ->
  one_decimal_place (sign ++ a ++ [46%N; d]) = true.
Proof.
  intros Hsign Ha Hda Hd.
  assert (Hbody : match rev (a ++ [46%N; d]) with
                  | d :: dot :: int_part =>
                      is_digit d && (dot =? 46)%N && truthy int_part
                      && forallb is_digit int_part
                  | _ => false
                  end = true).
  { rewrite rev_app_distr. simpl.
    rewrite Hd, forallb_rev, Hda. simpl.
    destruct a as [|c a]; [congruence|].
    simpl. destruct (rev a); reflexivity. }
  unfold one_decimal_place.
  destruct Hsign as [-> | ->]; cbn [List.app].
  - destruct a as [|c a]; [congruence|].
    simpl in Hda. apply andb_true_iff in Hda as [Hc _].
    cbn [List.app]. destruct (N.eqb_spec c 45) as [->|_]; [discriminate Hc|].
    exact Hbody.
  - exact Hbody.
Qed.

(** A numeral with one decimal place has no exponent part. *)
Lemma one_decimal_place_no_exponent (s : jsstring) :
  one_decimal_place s = true -> ~ In 101%N s.
Proof.
  unfold one_decimal_place. intros H Hin.
  set (unsigned := match s with
                   | c :: r => if (c =? 45)%N then r else s
                   | [] => s
                   end) in *.
  assert (Hu : In 101%N unsigned).
  { subst unsigned. destruct s as [|c r]; [exact Hin|].
    destruct (N.eqb_spec c 45) as [->|_]; [|exact Hin].
    destruct Hin as [Hin|Hin]; [discriminate Hin | exact Hin]. }
  apply in_rev in Hu.
  destruct (rev unsigned) as [|d [|dot int_part]]; try discriminate H.
  apply andb_true_iff in H as [H Hint].
  apply andb_true_iff in H as [H _].
  apply andb_true_iff in H as [Hd Hdot].
  destruct Hu as [->|[->|Hu]]; try discriminate.
  assert (He : is_digit 101 = true)
    by (eapply forallb_forall; eassumption).
  discriminate He.
Qed.

Lemma toString_large_exponent (m : positive) (e : Z) :
  In 101%N (toString_large m e).
Proof.
  unfold toString_large.
  destruct (shortest_digits _ _ _ _ _) as [s n].
  destruct (Number_toString s) as [|c [|c' rest]]; simpl; auto.
  right. right. right. apply in_or_app. right. simpl. auto.
Qed.

(** [toFixed(1)] prints one decimal place on the finite numbers below
    10^21 in magnitude, and on no other. *)
Lemma toFixed_one_decimal_place (x : number) :
  one_decimal_place (toFixed x 1) = fixed_range x.
Proof.
  unfold toFixed, fixed_range.
  destruct (Prim2SF x) as [sgn|[|]| |sgn m e]; try reflexivity.
  destruct (at_least_1e21 m e); simpl negb.
  - destruct (one_decimal_place _) eqn:E; [exfalso | reflexivity].
    apply one_decimal_place_no_exponent in E. apply E.
    apply in_or_app. right. apply toString_large_exponent.
  - destruct (fixed_notation_one (nearest_scaled m e 1)) as (a & d & -> & Ha & Hda & Hd).
    apply one_decimal_place_intro; auto.
    destruct sgn; auto.
Qed.

(** The scaled integer [toFixed] prints is nearest to the scaled value
    [m * 10^f / 2^p], the larger one on a tie. *)
Lemma nearest_scaled_nearest (m p : positive) (f : nat) :
  let scaled := (Npos m * 10 ^ N.of_nat f)%N in
  let n := nearest_scaled m (Zneg p) f in
  (2 ^ Npos p * (2 * n) <= 2 * scaled + 2 ^ Npos p
   /\ 2 * scaled + 2 ^ Npos p < 2 ^ Npos p * (2 * (n + 1)))%N.
Proof.
  cbv zeta. unfold nearest_scaled.
  set (scaled := (Npos m * 10 ^ N.of_nat f)%N).
  set (D := (2 ^ Npos p)%N).
  assert (HD : (D <> 0)%N) by (apply N.pow_nonzero; discriminate).
  replace (2 ^ (Npos p + 1))%N with (2 * D)%N
    by (unfold D; rewrite N.pow_add_r; simpl; lia).
  assert (H2D : (2 * D <> 0)%N) by lia.
  pose proof (N.Div0.mul_div_le (2 * scaled + D) (2 * D)) as Hle.
  pose proof (N.mul_succ_div_gt (2 * scaled + D) (2 * D) H2D) as Hgt.
  set (q := ((2 * scaled + D) / (2 * D))%N) in *.
  split; nia.
Qed.

(** ** ResultsDisplay *)

Lemma Forall2_map_right {A B} (R : A -> B -> Prop) (f : A -> B) (l : list A) :
  (forall x, In x l -> R x (f x)) -> Forall2 R l (map f l).
Proof.
  induction l as [|x l IH]; intros H; simpl; constructor.
  - apply H. left. reflexivity.
  - apply IH. intros y Hy. apply H. right. exact Hy.
Qed.

Lemma flat_map_map {A B C} (f : A -> B) (g : B -> list C) (l : list A) :
  flat_map g (map f l) = flat_map (fun x => g (f x)) l.
Proof. induction l as [|x l IH]; simpl; congruence. Qed.

Lemma items_renderVectorContext (results : ask_data) :
  items (renderVectorContext results)
  = map renderPassage (vector_context results).
Proof. reflexivity. Qed.

Lemma paragraphs_of_passage (result : vector_entry) :
  map textContent (select "p" (renderPassage result))
  = [ if (400 <? length (text result))%nat
      then firstn 400 (text result) ++ lit "..."
      else text result ].
Proof.
  unfold renderPassage.
  destruct (400 <? length (text result))%nat; simpl;
    rewrite ?slice_from_start, ?app_nil_r; reflexivity.
Qed.

Lemma spans_of_passage (result : vector_entry) :
  map textContent (select "span" (renderPassage result))
  = [ lit "Relevance: " ++ toFixed (similarity result * 100)%float 1 ++ lit "%";
      lit "Paper: " ++ firstn 8 (paper_id result) ++ lit "..." ].
Proof.
  unfold renderPassage.
  destruct (400 <? length (text result))%nat; simpl;
    rewrite ?slice_from_start; reflexivity.
Qed.

(** C3: for every entry of [vector_context], the paragraph of its item in
    the Semantic Results tab shows the text itself when it has at most 400
    code units, and its first 400 code units followed by "..." when it
    has more. *)
Theorem passage_text_truncated_at_400 (results : ask_data) :
  Forall2
    (fun result item =>
       exists shown,
         map textContent (select "p" item) = [shown]
         /\ (length (text result) <= 400 -> shown = text result)
         /\ (400 < length (text result) ->
             shown = firstn 400 (text result) ++ lit "..."))
    (vector_context results)
    (items (renderVectorContext results)).
Proof.
  rewrite items_renderVectorContext.
  apply Forall2_map_right. intros result _.
  eexists. split; [apply paragraphs_of_passage|].
  destruct (Nat.ltb_spec 400 (length (text result))); split; intros; auto; lia.
Qed.

(** C7, as amended: the Semantic Results tab has one item per entry of
    [vector_context], in the order of the payload; the item of an entry
    shows "Relevance: " followed by [(similarity * 100).toFixed(1)] and
    "%", and "Paper: " followed by the first 8 code units of [paper_id]
    and "..."; the relevance is a numeral with exactly one decimal place
    when, and only when, [similarity * 100] is finite and below 10^21 in
    magnitude. *)
Theorem semantic_results_in_payload_order (results : ask_data) :
  items (renderVectorContext results)
  = map renderPassage (vector_context results)
  /\ length (items (renderVectorContext results))
     = length (vector_context results)
  /\ Forall2
       (fun result item =>
          let percent := toFixed (similarity result * 100)%float 1 in
          map textContent (select "span" item)
          = [ lit "Relevance: " ++ percent ++ lit "%";
              lit "Paper: " ++ firstn 8 (paper_id result) ++ lit "..." ]
          /\ one_decimal_place percent
             = fixed_range (similarity result * 100)%float)
       (vector_context results)
       (items (renderVectorContext results)).
Proof.
  rewrite items_renderVectorContext. split; [reflexivity|]. split.
  - apply length_map.
  - apply Forall2_map_right. intros result _. cbv zeta. split.
    + apply spans_of_passage.
    + apply toFixed_one_decimal_place.
Qed.

(** C7, as stated, fails: a similarity of 10^19 is shown as "1e+21%",
    which has no decimal place. *)
Lemma huge_similarity_without_decimal_place :
  let results :=
    {| answer := [];
       vector_context :=
         [ {| paper_id := lit "paper-0001"; text := lit "t";
              similarity := 1e19%float |} ];
       graph_context := [] |} in
  map (fun item => map textContent (select "span" item))
    (items (renderVectorContext results))
  = [ [lit "Relevance: 1e+21%"; lit "Paper: paper-00..."] ]
  /\ one_decimal_place (lit "1e+21") = false.
Proof. split; vm_compute; reflexivity. Qed.

Lemma is_type_eq (t : string) (item : graph_item) :
  is_type t item = true <-> item_type item = lit t.
Proof. apply str_eqb_eq. Qed.

Lemma filter_filter {A} (f g : A -> bool) (l : list A) :
  filter f (filter g l) = filter (fun x => g x && f x) l.
Proof.
  induction l as [|x l IH]; simpl; auto.
  destruct (g x); simpl; [destruct (f x)|]; rewrite IH; reflexivity.
Qed.

(** The line of a relationship under its paper. *)
Lemma spans_of_connections (rels : list graph_item) :
  map textContent (flat_map (select "span") (map renderConnection rels))
  = map (fun rel =>
           data_type (data rel) ++ lit ": "
           ++ firstn 8 (data_to (data rel)) ++ lit "...")
      rels.
Proof.
  induction rels as [|rel rels IH]; simpl; [reflexivity|].
  rewrite IH, slice_from_start. reflexivity.
Qed.

Lemma paragraphs_of_connections (rels : list graph_item) :
  flat_map (select "p") (map renderConnection rels) = [].
Proof. induction rels as [|rel rels IH]; simpl; auto. Qed.

Lemma last_child_renderPaper (rels : list graph_item) (paper : graph_item) :
  last_child (renderPaper rels paper)
  = Element "div" [] [
      Element "h5" [] [icon "Link"; txt "Knowledge Connections:"];
      Element "div" [] (
        map renderConnection (connections rels paper)
        ++ when (length (connections rels paper) =? 0)%nat
             (Element "p" [] [txt "No direct connections found"])) ].
Proof.
  unfold last_child, renderPaper, children.
  rewrite app_assoc. apply last_last.
Qed.

Lemma connection_lines_of_paper (rels : list graph_item) (paper : graph_item) :
  map textContent (select "span" (last_child (renderPaper rels paper)))
  = map (fun rel =>
           data_type (data rel) ++ lit ": "
           ++ firstn 8 (data_to (data rel)) ++ lit "...")
      (connections rels paper).
Proof.
  rewrite last_child_renderPaper. simpl.
  rewrite !app_nil_r, flat_map_app, map_app, spans_of_connections.
  destruct (length (connections rels paper) =? 0)%nat; simpl;
    apply app_nil_r.
Qed.

Lemma paragraphs_of_paper (rels : list graph_item) (paper : graph_item) :
  map textContent (select "p" (renderPaper rels paper))
  = match connections rels paper with
    | [] => [lit "No direct connections found"]
    | _ :: _ => []
    end.
Proof.
  unfold renderPaper. simpl.
  rewrite !flat_map_app.
  assert (Ha : flat_map (select "p")
                 match data_authors (data paper) with
                 | Some names =>
                     when (0 <? length names)%nat
                       (Element "div" [] [
                          icon "Users";
                          Element "span" [] [
                            Element "strong" [] [txt "Authors:"];
                            txt " ";
                            Text (join (lit ", ") names) ] ])
                 | None => []
                 end = []).
  { destruct (data_authors (data paper)) as [names|]; [|reflexivity].
    destruct (0 <? length names)%nat; reflexivity. }
  rewrite Ha. simpl. rewrite !app_nil_r, flat_map_app, paragraphs_of_connections.
  destruct (connections rels paper); reflexivity.
Qed.

Lemma titles_of_papers (rels papers : list graph_item) :
  map textContent (flat_map (select "h4") (map (renderPaper rels) papers))
  = map (fun paper => data_title (data paper)) papers.
Proof.
  induction papers as [|paper papers IH]; simpl; [reflexivity|].
  rewrite !flat_map_app.
  assert (Ha : flat_map (select "h4")
                 match data_authors (data paper) with
                 | Some names =>
                     when (0 <? length names)%nat
                       (Element "div" [] [
                          icon "Users";
                          Element "span" [] [
                            Element "strong" [] [txt "Authors:"];
                            txt " ";
                            Text (join (lit ", ") names) ] ])
                 | None => []
                 end = []).
  { destruct (data_authors (data paper)) as [names|]; [|reflexivity].
    destruct (0 <? length names)%nat; reflexivity. }
  rewrite Ha. simpl. rewrite !app_nil_r, flat_map_app.
  assert (Hc : forall l, flat_map (select "h4") (map renderConnection l) = []).
  { induction l; simpl; auto. }
  rewrite Hc.
  destruct (length (connections rels paper) =? 0)%nat; simpl; rewrite IH;
    reflexivity.
Qed.

(** C5: in the Knowledge Graph tab the cards are those of the entries of
    [graph_context] with type "paper", in their order; the lines under a
    paper are those of the entries with type "relationship" whose
    [data.from] is the paper's [data.id], in their order, and "No direct
    connections found" is shown exactly when there is none; the answer tab
    counts the entries with type "paper". *)
Theorem knowledge_graph_papers_and_connections (results : ask_data) :
  let gc := graph_context results in
  let papers := filter (is_type "paper") gc in
  let relationships := filter (is_type "relationship") gc in
  let links paper :=
    filter (fun item =>
              is_type "relationship" item
              && str_eqb (data_from (data item)) (data_id (data paper)))
      gc in
  (forall item,
      In item papers <-> In item gc /\ item_type item = lit "paper")
  /\ (forall paper item,
         In item (links paper)
         <-> In item gc /\ item_type item = lit "relationship"
             /\ data_from (data item) = data_id (data paper))
  /\ items (first_child (renderGraphContext results))
     = map (renderPaper relationships) papers
  /\ map textContent (select "h4" (renderGraphContext results))
     = map (fun paper => data_title (data paper)) papers
  /\ Forall2
       (fun paper card =>
          map textContent (select "span" (last_child card))
          = map (fun rel =>
                   data_type (data rel) ++ lit ": "
                   ++ firstn 8 (data_to (data rel)) ++ lit "...")
              (links paper)
          /\ map textContent (select "p" card)
             = match links paper with
               | [] => [lit "No direct connections found"]
               | _ :: _ => []
               end)
       papers
       (items (first_child (renderGraphContext results)))
  /\ In (Element "p" [] [
           txt "Analyzed "; Num (N.of_nat (length papers));
           txt " research papers" ])
       (select "p" (renderAnswer results)).
Proof.
  cbv zeta.
  assert (Hlinks : forall paper,
             connections (filter (is_type "relationship")
                            (graph_context results)) paper
             = filter (fun item =>
                         is_type "relationship" item
                         && str_eqb (data_from (data item))
                              (data_id (data paper)))
                 (graph_context results)).
  { intros paper. unfold connections. apply filter_filter. }
  split; [|split; [|split; [|split; [|split]]]].
  - intros item. rewrite filter_In, is_type_eq. reflexivity.
  - intros paper item.
    rewrite filter_In, andb_true_iff, is_type_eq, str_eqb_eq. reflexivity.
  - reflexivity.
  - unfold renderGraphContext. simpl.
    rewrite app_nil_r. apply titles_of_papers.
  - change (items (first_child (renderGraphContext results)))
      with (map (renderPaper (filter (is_type "relationship")
                                (graph_context results)))
              (filter (is_type "paper") (graph_context results))).
    apply Forall2_map_right. intros paper _.
    rewrite connection_lines_of_paper, paragraphs_of_paper, Hlinks.
    split; reflexivity.
  - simpl. auto 10.
Qed.

(** ** StatsPanel *)

(** C8: for stats that are not null, the grid of the panel shows
    [papers_processed] and [chunks_processed] as they are and the
    vectorizer as "Trained" when [vectorizer_fitted] is true and as
    "Ready" when it is false; the badges "Connected" and "Ready" of the
    two services are the same whatever the stats and the upload status
    are. *)
Theorem stats_panel_echoes_stats (st : stats_data)
  (us : option upload_status) :
  let cell (child : node) := Element "div" [] [child] in
  children (last_child (last_child (second_child (StatsPanel (Some st) us))))
  = [ cell (txt "Papers:"); cell (Num (papers_processed st));
      cell (txt "Chunks:"); cell (Num (stats_chunks_processed st));
      cell (txt "Vectorizer:");
      cell (txt (if vectorizer_fitted st then "Trained" else "Ready")) ]
  /\ (forall stats : option stats_data,
         firstn 4 (map textContent (select "span" (StatsPanel stats us)))
         = [ lit "Neo4j Database"; lit "Connected";
             lit "Vector Engine"; lit "Ready" ]
         /\ select "span" (StatsPanel stats us)
            = select "span" (StatsPanel None us)).
Proof.
  cbv zeta. split.
  - unfold StatsPanel, second_child, last_child, children. cbn [nth].
    rewrite app_assoc, last_last. cbn [last].
    destruct (vectorizer_fitted st); reflexivity.
  - intros stats. split; [reflexivity|].
    unfold StatsPanel. simpl. rewrite !flat_map_app.
    destruct stats as [st'|]; [destruct (vectorizer_fitted st')|];
      reflexivity.
Qed.

(** ** QuestionForm *)

(** C2: the submit button of the form is disabled when there is no upload
    status, when the type of the status is not "success", and when the
    trimmed question is empty; it is enabled exactly when the status has
    type "success" and the trimmed question is not empty. *)
Theorem submit_disabled_until_upload_succeeds
  (us : option upload_status) (q : jsstring) :
  map (prop "disabled")
    (flat_map (select "button") (select "form" (QuestionForm us q)))
  = [Some (ABool (submit_disabled us q))]
  /\ (submit_disabled us q = true
      <-> us = None
          \/ (exists st, us = Some st /\ status_type st <> lit "success")
          \/ trim q = [])
  /\ (submit_disabled us q = false
      <-> (exists st, us = Some st /\ status_type st = lit "success")
          /\ trim q <> []).
Proof.
  split.
  { assert (Hicon : select "form" (getStatusIcon us) = []).
    { unfold getStatusIcon.
      repeat match goal with |- context [if ?c then _ else _] =>
        destruct c end; reflexivity. }
    unfold QuestionForm. simpl. rewrite Hicon.
    destruct us as [st|]; simpl; [|reflexivity].
    destruct (details st) as [d|]; [destruct (truthy d)|]; reflexivity. }
  unfold submit_disabled. split.
  - rewrite orb_true_iff, negb_true_iff, truthy_false.
    destruct us as [st|].
    + rewrite negb_true_iff, str_eqb_neq. split.
      * intros [H|H]; [right; right; exact H | right; left; eauto].
      * intros [H|[(st' & [= <-] & H)|H]]; [discriminate | right | left]; auto.
    + split; auto.
  - rewrite orb_false_iff, negb_false_iff, truthy_true.
    destruct us as [st|].
    + rewrite negb_false_iff, str_eqb_eq. split.
      * intros [Hq Hs]; eauto.
      * intros [(st' & [= <-] & Hs) Hq]; auto.
    + split; [intros [_ H]; discriminate | intros [(st & H & _) _]; discriminate].
Qed.

(** ** FileUpload *)

(** The upload handler returns; it never throws. *)
Lemma handleFileUpload_returns (net : backend) (file : File) (w : world) :
  fst (handleFileUpload net file w) = Returned tt.
Proof.
  run.
  destruct (upload net [(lit "file", file)]) as [rsp|err]; simpl;
    [destruct (get_stats net) as [st|err]|]; reflexivity.
Qed.

(** The handler of [FileUpload], run with nothing between its turns, is
    the handler its turns make up. *)
Lemma uninterrupted_handleFileUpload
  (net : backend) (file : File) (w : world) :
  Async.uninterrupted net (Async.handleFileUpload file) w
  = handleFileUpload net file w.
Proof.
  turns. run.
  destruct (upload net [(lit "file", file)]) as [rsp|err]; simpl;
    [destruct (get_stats net) as [st|err]|]; reflexivity.
Qed.

(** C1: in its first turn the handler reports the status "loading" and
    posts the file.  When the POST succeeds, its second turn reports
    "success", with the title in the message and the number of chunks and
    the authors joined by ", " in the details, and requests the stats,
    which its third turn hands to [onStatsUpdate] when they arrive.  When
    the POST fails, its second turn reports "error" and is its last: it
    neither requests the stats nor calls [onStatsUpdate].  [w1] and [w2]
    are the states of the page when the POST and the stats request have
    settled, whatever happened while the call was waiting. *)
Theorem upload_reports_status_and_refreshes_stats
  (net : backend) (file : File) (w0 w1 w2 : world) :
  let turn1 := Async.handleFileUpload file w0 in
  let turn2 := Async.resume net (fst turn1) w1 in
  let turn3 := Async.resume net (fst turn2) w2 in
  let loading_status :=
    {| status_type := lit "loading";
       message := lit "Uploading and processing PDF...";
       details := None |} in
  trace (snd turn1)
  = trace w0
    ++ [Call_onUploadStatus loading_status; Request (upload_request file)]
  /\ uploadStatus (app (snd turn1)) = Some loading_status
  /\ Async.pending_request (fst turn1) = Some (upload_request file)
  /\ (forall rsp, upload net [(lit "file", file)] = Resolved rsp ->
        let success :=
          {| status_type := lit "success";
             message := lit "Processed: " ++ title rsp;
             details :=
               Some (ToString (chunks_processed rsp) ++ lit " chunks "
                     ++ [bullet] ++ lit " "
                     ++ join (lit ", ") (authors rsp)) |} in
        trace (snd turn2)
        = trace w1 ++ [Call_onUploadStatus success; Request stats_request]
        /\ uploadStatus (app (snd turn2)) = Some success
        /\ Async.pending_request (fst turn2) = Some stats_request
        /\ (forall st, get_stats net = Resolved st ->
              trace (snd turn3) = trace w2 ++ [Call_onStatsUpdate st]
              /\ stats (app (snd turn3)) = Some st
              /\ fst turn3 = Async.Settled (Returned tt)))
  /\ (forall err, upload net [(lit "file", file)] = Rejected err ->
        exists failure,
          status_type failure = lit "error"
          /\ trace (snd turn2)
             = trace w1
               ++ [ Console_error (lit "Upload error:") err;
                    Call_onUploadStatus failure ]
          /\ uploadStatus (app (snd turn2)) = Some failure
          /\ stats (app (snd turn2)) = stats (app w1)
          /\ fst turn2 = Async.Settled (Returned tt)).
Proof.
  cbv zeta. turns.
  split; [rewrite <- !app_assoc; reflexivity|].
  split; [reflexivity|]. split; [reflexivity|]. split.
  - intros rsp ->. cbn.
    split; [rewrite <- !app_assoc; reflexivity|].
    split; [reflexivity|]. split; [reflexivity|].
    intros st ->. cbn. repeat split.
  - intros err ->. cbn.
    eexists. split; [|split; [|split; [reflexivity|split]]].
    + reflexivity.
    + rewrite <- !app_assoc. reflexivity.
    + reflexivity.
    + reflexivity.
Qed.

(** On the sample backends, with nothing between the turns: the details
    of a successful upload, the stats it fetches, and no stats after a
    failed one. *)
Lemma upload_reports_status_and_refreshes_stats_witness :
  let turn1 := Async.handleFileUpload Samples.paper_pdf App.initial in
  let turn2 := Async.resume Samples.healthy (fst turn1) (snd turn1) in
  let turn3 := Async.resume Samples.healthy (fst turn2) (snd turn2) in
  let failed :=
    Async.resume (Samples.failing Samples.network_error) (fst turn1)
      (snd turn1) in
  option_map details (uploadStatus (app (snd turn2)))
  = Some (Some (lit "12 chunks " ++ [bullet] ++ lit " S. Ioffe, C. Szegedy"))
  /\ stats (app (snd turn3)) = Some Samples.some_stats
  /\ stats (app (snd failed)) = None.
Proof.
  cbv zeta. split; [|split].
  - destruct (upload_reports_status_and_refreshes_stats Samples.healthy
                Samples.paper_pdf App.initial
                (snd (Async.handleFileUpload Samples.paper_pdf App.initial))
                App.initial)
      as (_ & _ & _ & Hok & _).
    destruct (Hok Samples.uploaded eq_refl) as (_ & Hstatus & _).
    rewrite Hstatus. vm_compute. reflexivity.
  - pose (w1 := snd (Async.handleFileUpload Samples.paper_pdf App.initial)).
    destruct (upload_reports_status_and_refreshes_stats Samples.healthy
                Samples.paper_pdf App.initial w1
                (snd (Async.resume Samples.healthy
                        (fst (Async.handleFileUpload Samples.paper_pdf
                                App.initial)) w1)))
      as (_ & _ & _ & Hok & _).
    destruct (Hok Samples.uploaded eq_refl) as (_ & _ & _ & Hstats).
    apply (Hstats Samples.some_stats eq_refl).
  - destruct (upload_reports_status_and_refreshes_stats
                (Samples.failing Samples.network_error)
                Samples.paper_pdf App.initial
                (snd (Async.handleFileUpload Samples.paper_pdf App.initial))
                App.initial)
      as (_ & _ & _ & _ & Hfail).
    destruct (Hfail Samples.network_error eq_refl)
      as (failure & _ & _ & _ & Hstats & _).
    exact Hstats.
Defined.

Lemma requests_app (t1 t2 : list effect) :
  requests (t1 ++ t2) = requests t1 ++ requests t2.
Proof. apply flat_map_app. Qed.


Lemma results_calls_app (t1 t2 : list effect) :
  results_calls (t1 ++ t2) = results_calls t1 ++ results_calls t2.
Proof. apply flat_map_app. Qed.

(** The upload handler posts the file before any other request. *)
Lemma handleFileUpload_requests (net : backend) (file : File) (w : world) :
  exists more,
    requests (trace (exec (handleFileUpload net file) w))
    = requests (trace w) ++ upload_request file :: more.
Proof.
  run.
  destruct (upload net [(lit "file", file)]) as [rsp|err]; simpl;
    [destruct (get_stats net) as [st|err]; simpl|];
    rewrite !requests_app; simpl; rewrite <- !app_assoc; simpl;
    eexists; reflexivity.
Qed.



(** C6, as amended: when the upload fails, the message of the "error"
    status is [error.response.data.detail] when that is present and not
    the empty string, and "Upload failed. Please try again." otherwise;
    the details are "Status: " and the status code when the error has a
    response with a status code other than 0, and empty otherwise. *)
Theorem upload_error_message
  (net : backend) (file : File) (w : world) (err : js_error) :
  upload net [(lit "file", file)] = Rejected err ->
  exists failure,
    uploadStatus (app (exec (handleFileUpload net file) w)) = Some failure
    /\ status_type failure = lit "error"
    /\ (forall d, detail_of err = Some d -> d <> [] -> message failure = d)
    /\ (detail_of err = None \/ detail_of err = Some [] ->
        message failure = lit "Upload failed. Please try again.")
    /\ (forall r, response err = Some r -> status r <> 0%N ->
        details failure
        = Some (lit "Status: " ++ Number_toString (status r)))
    /\ (response err = None
        \/ (exists r, response err = Some r /\ status r = 0%N) ->
        details failure = Some []).
Proof.
  intros Hup. run. rewrite Hup. simpl.
  eexists. split; [reflexivity|]. simpl. split; [reflexivity|].
  split; [|split; [|split]].
  - intros d -> Hd. destruct d; [congruence | reflexivity].
  - intros [-> | ->]; reflexivity.
  - intros r -> Hr. destruct (N.eqb_spec (status r) 0); [congruence | reflexivity].
  - intros [-> | (r & -> & Hr)]; [reflexivity|].
    rewrite Hr. reflexivity.
Qed.

(** On the sample backend that answers 400 with a detail. *)
Lemma upload_error_message_witness :
  exists failure,
    uploadStatus
      (app (exec (handleFileUpload (Samples.failing Samples.bad_request)
                    Samples.paper_pdf) App.initial))
    = Some failure
    /\ message failure = lit "Only PDF files are supported"
    /\ details failure = Some (lit "Status: 400").
Proof.
  destruct (upload_error_message (Samples.failing Samples.bad_request)
              Samples.paper_pdf App.initial eq_refl)
    as (failure & Hs & _ & Hdetail & _ & Hstatus & _).
  exists failure. split; [exact Hs|]. split.
  - apply Hdetail; [reflexivity | discriminate].
  - apply (Hstatus _ eq_refl). discriminate.
Defined.

(** C6, as stated, fails: a response whose detail is the empty string has
    its detail present, and the message is the fallback text. *)
Lemma empty_detail_is_replaced_by_fallback :
  let w' := exec (handleFileUpload (Samples.failing Samples.empty_detail)
                    Samples.paper_pdf) App.initial in
  detail_of Samples.empty_detail = Some []
  /\ option_map message (uploadStatus (app w'))
     = Some (lit "Upload failed. Please try again.")
  /\ option_map message (uploadStatus (app w'))
     <> detail_of Samples.empty_detail.
Proof. repeat split. discriminate. Qed.

(** C4: a drop or a selection uploads its first file when the type of
    that file is "application/pdf", whatever files follow it; when there
    is no file or the type of the first one is another, no request is
    sent and the upload status stays as it is. *)
Theorem only_a_pdf_is_uploaded (net : backend) (files : list File) (w : world) :
  (forall file rest,
      files = file :: rest -> file_type file = lit "application/pdf" ->
      handleDrop net files w
      = handleFileUpload net file
          (exec (preventDefault ;; setIsDragging false) w)
      /\ handleFileSelect net files w = handleFileUpload net file w
      /\ (exists more,
            requests (trace (exec (handleDrop net files) w))
            = requests (trace w) ++ upload_request file :: more)
      /\ (exists more,
            requests (trace (exec (handleFileSelect net files) w))
            = requests (trace w) ++ upload_request file :: more))
  /\ (files = []
      \/ (exists file rest,
            files = file :: rest /\ file_type file <> lit "application/pdf") ->
      requests (trace (exec (handleDrop net files) w)) = requests (trace w)
      /\ uploadStatus (app (exec (handleDrop net files) w))
         = uploadStatus (app w)
      /\ exec (handleFileSelect net files) w = w)
  /\ (forall file rest,
         handleDrop net (file :: rest) w = handleDrop net [file] w
         /\ handleFileSelect net (file :: rest) w
            = handleFileSelect net [file] w).
Proof.
  split; [|split].
  - intros file rest -> Hpdf. apply str_eqb_eq in Hpdf.
    assert (Hdrop : handleDrop net (file :: rest) w
                    = handleFileUpload net file
                        (exec (preventDefault ;; setIsDragging false) w)).
    { unfold handleDrop. cbn [nth_error length Nat.ltb Nat.leb andb].
      rewrite Hpdf. reflexivity. }
    assert (Hsel : handleFileSelect net (file :: rest) w
                   = handleFileUpload net file w).
    { unfold handleFileSelect. cbn [nth_error]. rewrite Hpdf. reflexivity. }
    split; [exact Hdrop|]. split; [exact Hsel|]. split.
    + unfold exec at 1. rewrite Hdrop.
      destruct (handleFileUpload_requests net file
                  (exec (preventDefault ;; setIsDragging false) w))
        as (more & Hmore).
      exists more. unfold exec at 1 in Hmore. rewrite Hmore.
      f_equal. unfold exec, preventDefault, setIsDragging, bind, emit,
        modify_fileUpload, modify. simpl.
      rewrite requests_app. apply app_nil_r.
    + unfold exec at 1. rewrite Hsel.
      apply (handleFileUpload_requests net file w).
  - intros [-> | (file & rest & -> & Hpdf)].
    + run. simpl. rewrite requests_app. simpl. rewrite app_nil_r.
      repeat split.
    + apply str_eqb_neq in Hpdf.
      unfold exec, handleDrop, handleFileSelect.
      cbn [nth_error length Nat.ltb Nat.leb andb].
      unfold bind, preventDefault, setIsDragging, emit, modify_fileUpload,
        modify. rewrite Hpdf. simpl.
      rewrite requests_app. simpl. rewrite app_nil_r. repeat split.
  - intros file rest. split; reflexivity.
Qed.

(** On sample file lists: a text file first, a text file alone, a PDF
    first. *)
Lemma only_a_pdf_is_uploaded_witness :
  requests (trace (exec (handleDrop Samples.healthy
                           [Samples.notes_txt; Samples.paper_pdf])
                     App.initial)) = []
  /\ exec (handleFileSelect Samples.healthy [Samples.notes_txt]) App.initial
     = App.initial
  /\ handleDrop Samples.healthy [Samples.paper_pdf; Samples.notes_txt]
       App.initial
     = handleFileUpload Samples.healthy Samples.paper_pdf
         (exec (preventDefault ;; setIsDragging false) App.initial).
Proof.
  split; [|split].
  - apply (only_a_pdf_is_uploaded Samples.healthy
             [Samples.notes_txt; Samples.paper_pdf] App.initial).
    right. exists Samples.notes_txt, [Samples.paper_pdf].
    split; [reflexivity | discriminate].
  - apply (only_a_pdf_is_uploaded Samples.healthy
             [Samples.notes_txt] App.initial).
    right. exists Samples.notes_txt, []. split; [reflexivity | discriminate].
  - apply (proj1 (only_a_pdf_is_uploaded Samples.healthy
                    [Samples.paper_pdf; Samples.notes_txt] App.initial)
             Samples.paper_pdf [Samples.notes_txt] eq_refl eq_refl).
Defined.

(** C9: a question that is empty once trimmed is not posted, and nothing
    but the default action of the event is touched; otherwise the trimmed
    question is posted.  When the POST fails, [onResults] is not called,
    the results of the state are the ones from before, and the page
    renders as it did before the submission; when the POST succeeds the
    results are the data of the response.  In both cases the loading flag
    is set before the request and is false at the end. *)
Theorem question_submission (net : backend) (w : world) :
  let q := trim (question w) in
  let w' := exec (handleSubmit net) w in
  (q = [] ->
     trace w' = trace w ++ [PreventDefault]
     /\ requests (trace w') = requests (trace w)
     /\ app w' = app w)
  /\ (forall err, q <> [] -> ask net q = Rejected err ->
        trace w'
        = trace w
          ++ [ PreventDefault; Call_onLoading true;
               Request (ask_request q);
               Console_error (lit "Error asking question:") err;
               Alert (or_default (detail_of err)
                        (lit "Error processing your question. Please try again."));
               Call_onLoading false ]
        /\ results_calls (trace w') = results_calls (trace w)
        /\ results (app w') = results (app w)
        /\ loading (app w') = false
        /\ (loading (app w) = false -> App.App w' = App.App w))
  /\ (forall data, q <> [] -> ask net q = Resolved data ->
        trace w'
        = trace w
          ++ [ PreventDefault; Call_onLoading true;
               Request (ask_request q);
               Call_onResults data;
               Call_onLoading false ]
        /\ results (app w') = Some data
        /\ loading (app w') = false).
Proof.
  cbv zeta. split; [|split].
  - intros Hq. run. rewrite Hq. simpl.
    rewrite requests_app. simpl. rewrite app_nil_r.
    destruct w; repeat split.
  - intros err Hq Hask. apply truthy_true in Hq. run.
    rewrite Hq. simpl. rewrite Hask. simpl.
    rewrite !results_calls_app, <- !app_assoc. simpl. rewrite app_nil_r.
    repeat split.
    destruct w as [[res ld tab us st] fu qu tr]. simpl. intros ->.
    reflexivity.
  - intros data Hq Hask. apply truthy_true in Hq. run.
    rewrite Hq. simpl. rewrite Hask. simpl.
    rewrite <- !app_assoc. repeat split.
Qed.

(** On sample questions: blank, padded with spaces, and asked of a backend
    that does not answer. *)
Lemma question_submission_witness :
  let posted (net : backend) (q : string) :=
    requests (trace (exec (handleSubmit net) (Samples.asking q))) in
  posted Samples.healthy "   " = []
  /\ posted Samples.healthy "  What is new? "
     = [ask_request (lit "What is new?")]
  /\ results
       (app (exec (handleSubmit (Samples.failing Samples.network_error))
               (Samples.asking "What is new?"))) = None
  /\ loading
       (app (exec (handleSubmit (Samples.failing Samples.network_error))
               (Samples.asking "What is new?"))) = false.
Proof.
  cbv zeta. split; [|split; [|split]].
  - destruct (question_submission Samples.healthy (Samples.asking "   "))
      as (Hempty & _).
    apply Hempty. reflexivity.
  - destruct (question_submission Samples.healthy
                (Samples.asking "  What is new? ")) as (_ & _ & Hok).
    destruct (Hok Samples.an_answer) as (Htrace & _);
      [discriminate | reflexivity |].
    rewrite Htrace. reflexivity.
  - destruct (question_submission (Samples.failing Samples.network_error)
                (Samples.asking "What is new?")) as (_ & Hfail & _).
    destruct (Hfail Samples.network_error) as (_ & _ & Hres & _);
      [discriminate | reflexivity |].
    rewrite Hres. reflexivity.
  - destruct (question_submission (Samples.failing Samples.network_error)
                (Samples.asking "What is new?")) as (_ & Hfail & _).
    destruct (Hfail Samples.network_error) as (_ & _ & _ & Hload & _);
      [discriminate | reflexivity |].
    exact Hload.
Defined.

(** ** The components on the sample payloads *)

Example upload_then_stats :
  let t := trace (exec (handleFileUpload Samples.healthy Samples.paper_pdf)
                    App.initial) in
  map status_type (status_reports t) = [lit "loading"; lit "success"]
  /\ requests t = [upload_request Samples.paper_pdf; stats_request]
  /\ stats_updates t = [Samples.some_stats].
Proof. repeat split. Qed.

Example upload_rejected :
  let t := trace (exec (handleFileUpload (Samples.failing Samples.bad_request)
                          Samples.paper_pdf) App.initial) in
  map status_type (status_reports t) = [lit "loading"; lit "error"]
  /\ map message (status_reports t)
     = [ lit "Uploading and processing PDF...";
         lit "Only PDF files are supported" ]
  /\ requests t = [upload_request Samples.paper_pdf]
  /\ stats_updates t = [].
Proof. repeat split. Qed.

Example semantic_tab_of_sample :
  map (fun item => map textContent (select "span" item ++ select "p" item))
    (items (renderVectorContext Samples.an_answer))
  = [ [ lit "Relevance: 87.5%"; lit "Paper: 01234567..."; lit "We propose" ];
      [ lit "Relevance: 25.0%"; lit "Paper: fedcba98...";
        repeat 120%N 400 ++ lit "..." ] ].
Proof. vm_compute. reflexivity. Qed.

Example graph_tab_of_sample :
  map (fun card =>
         (map textContent (select "h4" card),
          map textContent (select "span" (last_child card)),
          map textContent (select "p" card)))
    (items (first_child (renderGraphContext Samples.an_answer)))
  = [ ([lit "Batch Normalization"], [lit "AUTHORED_BY: author-i..."], []);
      ([lit "Dropout"], [], [lit "No direct connections found"]) ].
Proof. vm_compute. reflexivity. Qed.

Example question_form_of_sample :
  submit_disabled None (lit "What is new?") = true
  /\ submit_disabled
       (uploadStatus
          (app (exec (handleFileUpload Samples.healthy Samples.paper_pdf)
                  App.initial)))
       (lit "What is new?") = false
  /\ submit_disabled
       (uploadStatus
          (app (exec (handleFileUpload (Samples.failing Samples.bad_request)
                        Samples.paper_pdf) App.initial)))
       (lit "What is new?") = true.
Proof. repeat split. Qed.

(* ================================================================== *)
(** * Further properties of the components *)

(** ** Trimming *)

Lemma trimStart_blank (s : jsstring) :
  trimStart s = [] <-> is_blank s = true.
Proof.
  unfold is_blank. induction s as [|c s IH]; simpl; [tauto|].
  destruct (is_white_space c); simpl; [exact IH|].
  split; discriminate.
Qed.

(** What [trimStart] leaves starts with no whitespace. *)
Lemma trimStart_head (s : jsstring) (c : code_unit) :
  hd_error (trimStart s) = Some c -> is_white_space c = false.
Proof.
  induction s as [|x s IH]; simpl; [discriminate|].
  destruct (is_white_space x) eqn:E; [exact IH|].
  simpl. intros [= <-]. exact E.
Qed.

(** [trimStart] drops a prefix. *)
Lemma trimStart_suffix (s : jsstring) :
  exists dropped, s = dropped ++ trimStart s.
Proof.
  induction s as [|x s (dropped & IH)]; simpl; [exists []; reflexivity|].
  destruct (is_white_space x).
  - exists (x :: dropped). simpl. congruence.
  - exists []. reflexivity.
Qed.

Lemma trim_blank (s : jsstring) : trim s = [] <-> is_blank s = true.
Proof.
  unfold trim, trimEnd. rewrite <- trimStart_blank. split.
  - intros H.
    assert (Hr : trimStart (rev (trimStart s)) = []).
    { rewrite <- (rev_involutive (trimStart _)), H. reflexivity. }
    apply trimStart_blank in Hr. unfold is_blank in Hr.
    rewrite forallb_rev in Hr.
    destruct (trimStart s) as [|c r] eqn:E; [reflexivity|].
    pose proof (@trimStart_head s c) as Hc. rewrite E in Hc.
    specialize (Hc eq_refl). simpl in Hr. rewrite Hc in Hr. discriminate.
  - intros ->. reflexivity.
Qed.

Lemma trim_ends (s : jsstring) (c : code_unit) :
  hd_error (trim s) = Some c \/ hd_error (rev (trim s)) = Some c ->
  is_white_space c = false.
Proof.
  unfold trim, trimEnd. rewrite rev_involutive. intros [H|H].
  - destruct (trimStart_suffix (rev (trimStart s))) as (dropped & Hd).
    apply (f_equal (@rev _)) in Hd.
    rewrite rev_involutive, rev_app_distr in Hd.
    destruct (rev (trimStart (rev (trimStart s)))) as [|x r];
      [discriminate H|].
    simpl in H. injection H as ->.
    apply (@trimStart_head s). rewrite Hd. reflexivity.
  - eapply trimStart_head. exact H.
Qed.

(** ** QuestionForm: the submission *)

Lemma alerts_app (t1 t2 : list effect) :
  alerts (t1 ++ t2) = alerts t1 ++ alerts t2.
Proof. apply flat_map_app. Qed.

(** X1: a question is dropped without a request exactly when it consists
    of whitespace only; any other question is posted once, and what is
    posted neither starts nor ends with whitespace. *)
Theorem only_blank_questions_are_dropped (net : backend) (w : world) :
  let q := trim (question w) in
  let w' := exec (handleSubmit net) w in
  (is_blank (question w) = true ->
     requests (trace w') = requests (trace w))
  /\ (is_blank (question w) = false ->
        requests (trace w') = requests (trace w) ++ [ask_request q]
        /\ forall c,
             hd_error q = Some c \/ hd_error (rev q) = Some c ->
             is_white_space c = false).
Proof.
  cbv zeta. split.
  - intros Hb. apply trim_blank in Hb. run. rewrite Hb. simpl.
    rewrite requests_app. simpl. apply app_nil_r.
  - intros Hb. split; [|apply trim_ends].
    assert (Hq : truthy (trim (question w)) = true).
    { apply truthy_true. intros Hq. apply trim_blank in Hq. congruence. }
    run. rewrite Hq. simpl.
    destruct (ask net (trim (question w))) as [data|err]; simpl;
      rewrite !requests_app; simpl; rewrite !app_nil_r; reflexivity.
Qed.

(** On a question of spaces and on a padded one. *)
Lemma only_blank_questions_are_dropped_witness :
  requests (trace (exec (handleSubmit Samples.healthy)
                     (Samples.asking "   "))) = []
  /\ requests (trace (exec (handleSubmit Samples.healthy)
                        (Samples.asking " Why? ")))
     = [ask_request (lit "Why?")].
Proof.
  split.
  - apply (proj1 (only_blank_questions_are_dropped Samples.healthy
                    (Samples.asking "   "))).
    reflexivity.
  - apply (proj2 (only_blank_questions_are_dropped Samples.healthy
                    (Samples.asking " Why? "))).
    reflexivity.
Defined.

(** X2: the submit handler returns without throwing whatever the backend
    answers, and touches neither the upload status, the stats, the active
    tab, the text of the question nor the state of the upload widget. *)
Theorem submission_keeps_the_rest (net : backend) (w : world) :
  let w' := exec (handleSubmit net) w in
  fst (handleSubmit net w) = Returned tt
  /\ uploadStatus (app w') = uploadStatus (app w)
  /\ stats (app w') = stats (app w)
  /\ activeTab (app w') = activeTab (app w)
  /\ question w' = question w
  /\ fileUpload w' = fileUpload w.
Proof.
  cbv zeta. run.
  destruct (truthy (trim (question w))); simpl; [|repeat split].
  destruct (ask net (trim (question w))) as [data|err]; simpl; repeat split.
Qed.

(** X3: when the question cannot be answered, one alert is raised: with
    the detail of the response when there is one and it is not empty, and
    with "Error processing your question. Please try again." otherwise. *)
Theorem failed_question_is_alerted
  (net : backend) (w : world) (err : js_error) :
  is_blank (question w) = false ->
  ask net (trim (question w)) = Rejected err ->
  exists msg,
    alerts (trace (exec (handleSubmit net) w)) = alerts (trace w) ++ [msg]
    /\ (forall d, detail_of err = Some d -> d <> [] -> msg = d)
    /\ (detail_of err = None \/ detail_of err = Some [] ->
        msg = lit "Error processing your question. Please try again.").
Proof.
  intros Hb Hask.
  assert (Hq : truthy (trim (question w)) = true).
  { apply truthy_true. intros Hq. apply trim_blank in Hq. congruence. }
  run. rewrite Hq. simpl. rewrite Hask. simpl.
  eexists. split; [|split].
  - rewrite !alerts_app. simpl. rewrite !app_nil_r. reflexivity.
  - intros d -> Hd. destruct d; [congruence | reflexivity].
  - intros [-> | ->]; reflexivity.
Qed.

(** On the sample backend that answers 400 with a detail. *)
Lemma failed_question_is_alerted_witness :
  exists msg,
    alerts (trace (exec (handleSubmit (Samples.failing Samples.bad_request))
                     (Samples.asking "Why?"))) = [msg]
    /\ msg = lit "Only PDF files are supported".
Proof.
  destruct (failed_question_is_alerted
              (Samples.failing Samples.bad_request) (Samples.asking "Why?")
              (err := Samples.bad_request) eq_refl eq_refl)
    as (msg & Htrace & Hdetail & _).
  exists msg. split; [exact Htrace|].
  apply Hdetail; [reflexivity | discriminate].
Defined.

(** X4: once a question that is not blank is answered, the page shows,
    below its two columns, the results view of the answer on the tab that
    was active, and no spinner. *)
Theorem answer_is_shown (net : backend) (w : world) (data : ask_data) :
  is_blank (question w) = false ->
  ask net (trim (question w)) = Resolved data ->
  below_columns (App.App (exec (handleSubmit net) w))
  = [ResultsDisplay data (activeTab (app w))].
Proof.
  intros Hb Hask.
  assert (Hq : truthy (trim (question w)) = true).
  { apply truthy_true. intros Hq. apply trim_blank in Hq. congruence. }
  run. rewrite Hq. simpl. rewrite Hask. reflexivity.
Qed.

(** On the sample backend. *)
Lemma answer_is_shown_witness :
  below_columns (App.App (exec (handleSubmit Samples.healthy)
                            (Samples.asking "Why?")))
  = [ResultsDisplay Samples.an_answer (lit "answer")].
Proof.
  exact (answer_is_shown Samples.healthy (Samples.asking "Why?")
           (data := Samples.an_answer) eq_refl eq_refl).
Defined.

(** ** FileUpload: what every upload leaves behind *)

(** X5: whatever the backend answers and whatever happens to the page
    while the call waits, the upload handler ends without throwing, after
    the POST when it fails and after the stats request otherwise, and its
    last turn leaves the widget idle, with the file input enabled.  The
    turn that takes the answer of the POST reports one status, a
    "success" or an "error" one, and the turn after it reports none.  No
    turn touches the drag flag, the question, the results, the loading
    flag or the active tab. *)
Theorem upload_always_settles
  (net : backend) (file : File) (w0 w1 w2 : world) :
  let turn1 := Async.handleFileUpload file w0 in
  let turn2 := Async.resume net (fst turn1) w1 in
  let turn3 := Async.resume net (fst turn2) w2 in
  let idle (w : world) :=
    isUploading (fileUpload w) = false
    /\ map (prop "disabled") (select "input" (FileUpload (fileUpload w)))
       = [Some (ABool false)] in
  ((exists err, upload net [(lit "file", file)] = Rejected err) ->
     fst turn2 = Async.Settled (Returned tt) /\ idle (snd turn2))
  /\ ((exists rsp, upload net [(lit "file", file)] = Resolved rsp) ->
        fst turn3 = Async.Settled (Returned tt) /\ idle (snd turn3))
  /\ (exists st,
        status_reports (trace (snd turn2))
        = status_reports (trace w1) ++ [st]
        /\ uploadStatus (app (snd turn2)) = Some st
        /\ (status_type st = lit "success" \/ status_type st = lit "error"))
  /\ status_reports (trace (snd turn3)) = status_reports (trace w2)
  /\ uploadStatus (app (snd turn3)) = uploadStatus (app w2)
  /\ Async.keeps_the_rest w0 (snd turn1)
  /\ Async.keeps_the_rest w1 (snd turn2)
  /\ Async.keeps_the_rest w2 (snd turn3).
Proof.
  cbv zeta.
  assert (Hreports : forall t1 t2,
             status_reports (t1 ++ t2)
             = status_reports t1 ++ status_reports t2)
    by (intros; apply flat_map_app).
  turns.
  destruct (upload net [(lit "file", file)]) as [rsp|err]; cbn.
  - split; [intros (err & [=])|].
    destruct (get_stats net) as [st|err]; cbn;
      (split; [intros _; repeat split|]);
      (split; [eexists; rewrite !Hreports; simpl; rewrite ?app_nil_r;
               split; [reflexivity|]; split; [reflexivity|];
               simpl; auto|]);
      rewrite ?Hreports; simpl; rewrite ?app_nil_r; repeat split.
  - split; [intros _; repeat split|].
    split; [intros (rsp & [=])|].
    split; [eexists; rewrite !Hreports; simpl; rewrite ?app_nil_r;
            split; [reflexivity|]; split; [reflexivity|]; simpl; auto|].
    repeat split.
Qed.

Lemma handleFileUpload_keeps_drag_flag
  (net : backend) (file : File) (w : world) :
  isDragging (fileUpload (exec (handleFileUpload net file) w))
  = isDragging (fileUpload w).
Proof.
  run. destruct (upload net [(lit "file", file)]) as [rsp|err]; simpl;
    [destruct (get_stats net) as [st|err]|]; reflexivity.
Qed.

(** X6: dragging over the widget raises the drag flag, and leaving it or
    dropping lowers it: after a drop the flag is down whatever was dropped
    and whatever the backend answers.  Dragging over and leaving send no
    request and leave the state of [App] alone. *)
Theorem drag_flag_follows_the_pointer
  (net : backend) (files : list File) (w : world) :
  isDragging (fileUpload (exec handleDragOver w)) = true
  /\ isDragging (fileUpload (exec handleDragLeave w)) = false
  /\ isDragging (fileUpload (exec (handleDrop net files) w)) = false
  /\ requests (trace (exec handleDragOver w)) = requests (trace w)
  /\ requests (trace (exec handleDragLeave w)) = requests (trace w)
  /\ app (exec handleDragOver w) = app w
  /\ app (exec handleDragLeave w) = app w.
Proof.
  split; [reflexivity|]. split; [reflexivity|]. split.
  - unfold handleDrop.
    destruct files as [|file rest]; cbn [nth_error]; [reflexivity|].
    destruct (_ && _); [|reflexivity].
    unfold exec, bind, preventDefault, setIsDragging, emit,
      modify_fileUpload, modify. simpl.
    refine (eq_trans (handleFileUpload_keeps_drag_flag net file _) _).
    reflexivity.
  - unfold exec, handleDragOver, handleDragLeave, bind, preventDefault,
      setIsDragging, emit, modify_fileUpload, modify. simpl.
    rewrite !requests_app. simpl. rewrite !app_nil_r. repeat split.
Qed.

(** X7: the status the handler sets in its first turn locks the question
    form, textarea and submit button alike; the status it sets when the
    POST has settled enables the textarea, and enables the submit button
    exactly when the POST succeeded and the question is not blank: a
    failed upload locks the submission again, even after an earlier
    success.  [w1] is the state of the page when the POST has settled. *)
Theorem form_follows_the_last_upload
  (net : backend) (file : File) (w0 w1 : world) (q : jsstring) :
  let turn1 := Async.handleFileUpload file w0 in
  let turn2 := Async.resume net (fst turn1) w1 in
  let started := uploadStatus (app (snd turn1)) in
  let answered := uploadStatus (app (snd turn2)) in
  textarea_disabled started = true
  /\ submit_disabled started q = true
  /\ textarea_disabled answered = false
  /\ (submit_disabled answered q = false
      <-> (exists rsp, upload net [(lit "file", file)] = Resolved rsp)
          /\ is_blank q = false).
Proof.
  cbv zeta.
  assert (Hq : negb (truthy (trim q)) = is_blank q).
  { destruct (is_blank q) eqn:E.
    - apply trim_blank in E. rewrite E. reflexivity.
    - destruct (trim q) eqn:Et; [|reflexivity].
      apply trim_blank in Et. congruence. }
  unfold submit_disabled. rewrite Hq. turns.
  split; [reflexivity|]. split; [apply orb_true_r|].
  destruct (upload net [(lit "file", file)]) as [rsp|err]; cbn;
    (split; [reflexivity|]); rewrite ?orb_false_r, ?orb_true_r.
  - split; [intros ->; eauto | intros [_ ->]; reflexivity].
  - split; [discriminate | intros [(rsp & [=]) _]].
Qed.

(** ** QuestionForm: what it renders *)

Lemma getStatusIcon_leaf (us : option upload_status) (tag : string) :
  tag <> "div" -> select tag (getStatusIcon us) = [].
Proof.
  intros Htag. apply String.eqb_neq in Htag.
  assert (Hdot : forall props, select tag (Element "div" props []) = []).
  { intros props. cbn [select flat_map].
    rewrite String.eqb_sym, Htag. reflexivity. }
  unfold getStatusIcon.
  repeat match goal with |- context [if ?c then _ else _] =>
    destruct c end; apply Hdot.
Qed.

(** X8: the textarea of the form carries the question and is disabled
    exactly when there is no upload status or the status is "loading";
    whenever the submit button is enabled, the textarea is enabled too. *)
Theorem textarea_opens_with_the_first_upload
  (us : option upload_status) (q : jsstring) :
  map (fun area => (prop "value" area, prop "disabled" area))
    (select "textarea" (QuestionForm us q))
  = [(Some (AStr q), Some (ABool (textarea_disabled us)))]
  /\ (textarea_disabled us = true
      <-> us = None
          \/ exists st, us = Some st /\ status_type st = lit "loading")
  /\ (submit_disabled us q = false -> textarea_disabled us = false).
Proof.
  split; [|split].
  - unfold QuestionForm. simpl.
    rewrite (getStatusIcon_leaf us (tag := "textarea")) by discriminate.
    destruct us as [st|]; simpl; [|reflexivity].
    destruct (details st) as [d|]; [destruct (truthy d)|]; reflexivity.
  - unfold textarea_disabled. destruct us as [st|].
    + rewrite str_eqb_eq. split; [eauto|].
      intros [H|(st' & [= <-] & H)]; [discriminate | exact H].
    + split; auto.
  - unfold submit_disabled, textarea_disabled.
    destruct us as [st|]; [|rewrite orb_true_r; discriminate].
    intros H. apply orb_false_iff in H as [_ H].
    apply negb_false_iff, str_eqb_eq in H. rewrite H. reflexivity.
Qed.

(** An enabled submit button on the sample "success" status. *)
Lemma textarea_opens_with_the_first_upload_witness :
  textarea_disabled
    (uploadStatus
       (app (exec (handleFileUpload Samples.healthy Samples.paper_pdf)
               App.initial))) = false.
Proof.
  apply (proj2 (proj2 (textarea_opens_with_the_first_upload
                         (uploadStatus
                            (app (exec (handleFileUpload Samples.healthy
                                          Samples.paper_pdf) App.initial)))
                         (lit "Why?")))).
  reflexivity.
Defined.

(** X9: the status box of the form reads "Ready to process papers" before
    any upload and the message of the upload status afterwards, followed
    by the details of the status when they are set and not empty; the
    form has no other paragraph. *)
Theorem status_box_reads_the_upload_status
  (us : option upload_status) (q : jsstring) :
  map textContent (select "p" (QuestionForm us q))
  = match us with
    | None => [lit "Ready to process papers"]
    | Some st =>
        message st
        :: match details st with
           | Some (c :: d) => [c :: d]
           | _ => []
           end
    end.
Proof.
  unfold QuestionForm. simpl.
  rewrite (getStatusIcon_leaf us (tag := "p")) by discriminate.
  destruct us as [st|]; simpl; [|reflexivity].
  rewrite app_nil_r.
  destruct (details st) as [[|c d]|]; simpl; rewrite ?app_nil_r; reflexivity.
Qed.

Lemma examples_are_trimmed :
  Forall (fun example =>
            trim (lit example) = lit example
            /\ truthy (lit example) = true)
    exampleQuestions.
Proof. repeat constructor. Qed.

(** X10: the form offers one quick-fill button per example question, in
    the order of the list; a click on one makes its text the question,
    and submitting then posts exactly that text, since no example is
    blank or padded with whitespace. *)
Theorem example_questions_are_posted_verbatim
  (net : backend) (us : option upload_status) (w : world)
  (example : string) :
  In example exampleQuestions ->
  map textContent (select "button" (last_child (QuestionForm us (question w))))
  = map lit exampleQuestions
  /\ question (exec (insertExampleQuestion example) w) = lit example
  /\ requests
       (trace (exec (insertExampleQuestion example ;; handleSubmit net) w))
     = requests (trace w) ++ [ask_request (lit example)].
Proof.
  intros Hin. split; [reflexivity|]. split; [reflexivity|].
  pose proof examples_are_trimmed as Hall.
  rewrite Forall_forall in Hall. destruct (Hall example Hin) as [Ht Hq].
  unfold insertExampleQuestion, setQuestion. run.
  rewrite Ht, Hq. simpl.
  destruct (ask net (lit example)) as [data|err]; simpl;
    rewrite !requests_app; simpl; rewrite !app_nil_r; reflexivity.
Qed.

(** On the third example. *)
Lemma example_questions_are_posted_verbatim_witness :
  requests
    (trace (exec (insertExampleQuestion
                    "What are the key findings or results?"
                  ;; handleSubmit Samples.healthy) App.initial))
  = [ask_request (lit "What are the key findings or results?")].
Proof.
  apply (example_questions_are_posted_verbatim Samples.healthy None
           App.initial (example := "What are the key findings or results?")).
  simpl. auto.
Defined.

(** ** ResultsDisplay: tabs, headings, passages and authors *)

(** X11: the results view always offers the three tabs, in the order
    "AI Analysis", "Semantic Results", "Knowledge Graph", and renders the
    one view of the active tab: the answer for "answer", the passages for
    "vector", the papers for "graph", and nothing for any other id. *)
Theorem one_view_per_tab (results : ask_data) (activeTab : jsstring) :
  let view := ResultsDisplay results activeTab in
  map textContent (select "button" (first_child view))
  = [lit "AI Analysis"; lit "Semantic Results"; lit "Knowledge Graph"]
  /\ (activeTab = lit "answer" ->
      children (last_child view) = [renderAnswer results])
  /\ (activeTab = lit "vector" ->
      children (last_child view) = [renderVectorContext results])
  /\ (activeTab = lit "graph" ->
      children (last_child view) = [renderGraphContext results])
  /\ (activeTab <> lit "answer" -> activeTab <> lit "vector" ->
      activeTab <> lit "graph" ->
      children (last_child view) = []).
Proof.
  cbv zeta. split; [reflexivity|].
  unfold ResultsDisplay, last_child, children. cbn [last].
  repeat split.
  - intros ->. reflexivity.
  - intros ->. reflexivity.
  - intros ->. reflexivity.
  - intros Ha Hv Hg. apply str_eqb_neq in Ha, Hv, Hg.
    rewrite Ha, Hv, Hg. reflexivity.
Qed.

(** On the tab "vector" and on an unknown tab. *)
Lemma one_view_per_tab_witness :
  children (last_child (ResultsDisplay Samples.an_answer (lit "vector")))
  = [renderVectorContext Samples.an_answer]
  /\ children (last_child (ResultsDisplay Samples.an_answer (lit "stats")))
     = [].
Proof.
  split.
  - apply (one_view_per_tab Samples.an_answer (lit "vector")). reflexivity.
  - apply (one_view_per_tab Samples.an_answer (lit "stats")); discriminate.
Defined.

(** X12: a click on a tab makes it the active one and changes nothing
    else: no request is sent, and when results are shown the page shows
    the same results on the tab that was clicked. *)
Theorem tab_click_switches_the_view
  (id : string) (w : world) (r : ask_data) :
  results (app w) = Some r ->
  loading (app w) = false ->
  let w' := exec (clickTab id) w in
  below_columns (App.App w') = [ResultsDisplay r (lit id)]
  /\ results (app w') = Some r
  /\ uploadStatus (app w') = uploadStatus (app w)
  /\ stats (app w') = stats (app w)
  /\ loading (app w') = false
  /\ question w' = question w
  /\ fileUpload w' = fileUpload w
  /\ trace w' = trace w.
Proof.
  intros Hr Hl. cbv zeta.
  unfold clickTab, onTabChange, setActiveTab. run.
  unfold below_columns, first_child, App.App. simpl.
  rewrite Hr, Hl. repeat split.
Qed.

(** After the sample answer arrived, on the tab "graph". *)
Lemma tab_click_switches_the_view_witness :
  below_columns
    (App.App (exec (handleSubmit Samples.healthy ;; clickTab "graph")
                (Samples.asking "Why?")))
  = [ResultsDisplay Samples.an_answer (lit "graph")].
Proof.
  apply (tab_click_switches_the_view "graph"
           (exec (handleSubmit Samples.healthy) (Samples.asking "Why?"))
           (r := Samples.an_answer) eq_refl eq_refl).
Defined.

Lemma passages_have_no_heading (l : list vector_entry) :
  flat_map (select "h3") (map renderPassage l) = [].
Proof.
  induction l as [|result l IH]; [reflexivity|].
  cbn [map flat_map]. rewrite IH, app_nil_r.
  unfold renderPassage.
  destruct (400 <? length (text result))%nat; reflexivity.
Qed.

Lemma papers_have_no_heading (rels papers : list graph_item) :
  flat_map (select "h3") (map (renderPaper rels) papers) = [].
Proof.
  induction papers as [|paper papers IH]; [reflexivity|].
  cbn [map flat_map]. rewrite IH, app_nil_r.
  assert (Hc : forall l, flat_map (select "h3") (map renderConnection l) = []).
  { induction l; simpl; auto. }
  unfold renderPaper. simpl.
  rewrite !flat_map_app. simpl. rewrite !app_nil_r, flat_map_app, Hc.
  destruct (data_authors (data paper)) as [names|];
    [destruct (0 <? length names)%nat|];
    destruct (length (connections _ paper) =? 0)%nat; reflexivity.
Qed.

(** X13: the number in the heading of the Semantic Results tab and the
    number of passages the answer tab announces are both the number of
    passages listed, and the number in the heading of the Knowledge Graph
    tab is the number of papers listed. *)
Theorem headings_count_what_is_listed (results : ask_data) :
  let passages := length (items (renderVectorContext results)) in
  let papers := length (items (first_child (renderGraphContext results))) in
  map textContent (select "h3" (renderVectorContext results))
  = [ lit "Semantic Search Results (" ++ Number_toString (N.of_nat passages)
      ++ lit " relevant passages)" ]
  /\ In (lit "Found " ++ Number_toString (N.of_nat passages)
         ++ lit " relevant text passages")
       (map textContent (select "p" (renderAnswer results)))
  /\ map textContent (select "h3" (renderGraphContext results))
     = [ lit "Research Papers Analyzed (" ++ Number_toString (N.of_nat papers)
         ++ lit ")" ].
Proof.
  cbv zeta.
  replace (length (items (renderVectorContext results)))
    with (length (vector_context results))
    by (symmetry; apply length_map).
  replace (length (items (first_child (renderGraphContext results))))
    with (length (filter (is_type "paper") (graph_context results)))
    by (symmetry; apply length_map).
  split; [|split].
  - unfold renderVectorContext. simpl.
    rewrite passages_have_no_heading, ?app_nil_r. reflexivity.
  - simpl. rewrite ?app_nil_r. auto.
  - unfold renderGraphContext. simpl.
    rewrite papers_have_no_heading, ?app_nil_r. reflexivity.
Qed.

(** X14: a passage is shown with at most 403 code units, and its item
    offers the button "Show full text" exactly when the passage has more
    than 400 code units, that is, when it is shown cut. *)
Theorem long_passages_offer_the_full_text (results : ask_data) :
  Forall2
    (fun result item =>
       Forall (fun shown => length shown <= 403)
         (map textContent (select "p" item))
       /\ (400 < length (text result) ->
           map textContent (select "button" item) = [lit "Show full text"])
       /\ (length (text result) <= 400 -> select "button" item = []))
    (vector_context results)
    (items (renderVectorContext results)).
Proof.
  rewrite items_renderVectorContext.
  apply Forall2_map_right. intros result _.
  rewrite paragraphs_of_passage. unfold renderPassage.
  destruct (Nat.ltb_spec 400 (length (text result))) as [Hlong|Hshort].
  - split; [|split; [reflexivity | intros; lia]].
    constructor; [|constructor].
    rewrite length_app, length_firstn.
    change (length (lit "...")) with 3. lia.
  - split; [|split; [intros; lia | reflexivity]].
    constructor; [lia | constructor].
Qed.

(** X15: the card of a paper has a line "Authors: " with the names joined
    by ", " exactly when the paper has authors and their list is not
    empty; the other lines of the card are those of its connections. *)
Theorem authors_line_needs_authors
  (rels : list graph_item) (paper : graph_item) :
  map textContent (select "span" (renderPaper rels paper))
  = match data_authors (data paper) with
    | Some (name :: names) =>
        [lit "Authors: " ++ join (lit ", ") (name :: names)]
    | _ => []
    end
    ++ map (fun rel =>
              data_type (data rel) ++ lit ": "
              ++ firstn 8 (data_to (data rel)) ++ lit "...")
         (connections rels paper).
Proof.
  unfold renderPaper. simpl. rewrite !flat_map_app, !map_app. simpl.
  rewrite !app_nil_r, flat_map_app, map_app, spans_of_connections.
  f_equal.
  - destruct (data_authors (data paper)) as [[|name names]|]; simpl;
      rewrite ?app_nil_r; reflexivity.
  - destruct (length (connections rels paper) =? 0)%nat; simpl;
      apply app_nil_r.
Qed.

(** ** StatsPanel: the blocks that come and go *)

(** X16: the panel shows the block of the last upload, with its message
    and, when set and not empty, its details, only for a status of type
    "success", and the heading "SYSTEM STATS" only when there are stats;
    the tip at the bottom is always there. *)
Theorem panel_shows_only_a_successful_upload
  (stats : option stats_data) (us : option upload_status) :
  let tip :=
    lit "Ask questions like: " ++ [34%N]
    ++ lit "What is batch normalization?" ++ [34%N] ++ lit " or "
    ++ [34%N] ++ lit "Summarize the key findings" ++ [34%N] in
  (exists lines,
      map textContent (select "p" (StatsPanel stats us)) = lines ++ [tip]
      /\ (us = None
          \/ (exists st, us = Some st /\ status_type st <> lit "success") ->
          lines = [])
      /\ (forall st, us = Some st -> status_type st = lit "success" ->
          lines = message st
                  :: match details st with
                     | Some (c :: d) => [c :: d]
                     | _ => []
                     end))
  /\ map textContent (select "h4" (StatsPanel stats us))
     = match stats with
       | Some _ => [lit "SYSTEM STATS"]
       | None => []
       end
       ++ [(0xD83D :: 0xDCA1 :: lit " PRO TIP")%N].
Proof.
  cbv zeta. unfold StatsPanel. simpl. rewrite !flat_map_app, !map_app.
  assert (Hstats : forall tag, tag = "p" \/ tag = "h4" ->
            map textContent
              (flat_map (select tag)
                 match stats with
                 | Some st => [
                     Element "div" [] [
                       Element "h4" [] [txt "SYSTEM STATS"];
                       Element "div" [] [
                         Element "div" [] [txt "Papers:"];
                         Element "div" [] [Num (papers_processed st)];
                         Element "div" [] [txt "Chunks:"];
                         Element "div" [] [Num (stats_chunks_processed st)];
                         Element "div" [] [txt "Vectorizer:"];
                         Element "div" [] [
                           if vectorizer_fitted st then txt "Trained"
                           else txt "Ready" ] ] ] ]
                 | None => []
                 end)
            = if String.eqb tag "h4"
              then match stats with
                   | Some _ => [lit "SYSTEM STATS"]
                   | None => []
                   end
              else []).
  { intros tag [-> | ->]; destruct stats as [st|]; try reflexivity;
      destruct (vectorizer_fitted st); reflexivity. }
  rewrite (Hstats "p"), (Hstats "h4") by auto. simpl. split.
  - destruct us as [st|]; simpl.
    + destruct (str_eqb (status_type st) (lit "success")) eqn:E; simpl.
      * apply str_eqb_eq in E.
        exists (message st
                :: match details st with
                   | Some (c :: d) => [c :: d]
                   | _ => []
                   end).
        split; [|split].
        -- destruct (details st) as [[|c d]|]; simpl; rewrite ?app_nil_r;
             reflexivity.
        -- intros [H|(st' & [= <-] & H)]; [discriminate | congruence].
        -- intros st' [= <-] _. reflexivity.
      * exists []. split; [reflexivity|]. split; [reflexivity|].
        apply str_eqb_neq in E. intros st' [= <-] H. congruence.
    + exists []. split; [reflexivity|]. split; [reflexivity|].
      intros st [=].
  - destruct us as [st|]; simpl; [|rewrite ?app_nil_r; reflexivity].
    destruct (str_eqb (status_type st) (lit "success")); simpl;
      [|rewrite ?app_nil_r; reflexivity].
    destruct (details st) as [[|c d]|]; simpl; rewrite ?app_nil_r;
      reflexivity.
Qed.

(** X17: when the POST of an upload fails, the turn that takes the
    failure leaves the panel as it is for the stats the page has at that
    moment and no upload status at all: the stats block is unchanged, and
    there is no block of a last upload, whatever upload succeeded
    before. *)
Theorem failed_upload_leaves_the_panel
  (net : backend) (file : File) (w0 w1 : world) (err : js_error) :
  upload net [(lit "file", file)] = Rejected err ->
  let turn1 := Async.handleFileUpload file w0 in
  let turn2 := Async.resume net (fst turn1) w1 in
  StatsPanel (stats (app (snd turn2))) (uploadStatus (app (snd turn2)))
  = StatsPanel (stats (app w1)) None.
Proof.
  intros Hup. cbv zeta. turns. rewrite Hup. reflexivity.
Qed.

(** On the sample backend that answers 400, after an upload that had
    succeeded and fetched the sample stats. *)
Lemma failed_upload_leaves_the_panel_witness :
  let before :=
    exec (handleFileUpload Samples.healthy Samples.paper_pdf) App.initial in
  let turn1 := Async.handleFileUpload Samples.paper_pdf before in
  let turn2 :=
    Async.resume (Samples.failing Samples.bad_request) (fst turn1)
      (snd turn1) in
  StatsPanel (stats (app (snd turn2))) (uploadStatus (app (snd turn2)))
  = StatsPanel (Some Samples.some_stats) None.
Proof.
  exact (failed_upload_leaves_the_panel
           (Samples.failing Samples.bad_request) Samples.paper_pdf
           (exec (handleFileUpload Samples.healthy Samples.paper_pdf)
              App.initial)
           (snd (Async.handleFileUpload Samples.paper_pdf
                   (exec (handleFileUpload Samples.healthy Samples.paper_pdf)
                      App.initial)))
           (err := Samples.bad_request) eq_refl).
Defined.

(** ** Numbers in template literals, and overlapping uploads *)

Example ToString_of_counts :
  ToString 12%float = lit "12"
  /\ ToString 0x1p+53%float = lit "9007199254740992"
  /\ ToString 1e20%float = lit "100000000000000000000"
  /\ ToString 1e21%float = lit "1e+21"
  /\ ToString 0.5%float = lit "0.5"
  /\ ToString 0x1p-20%float = lit "9.5367431640625e-7"
  /\ ToString (-1.5)%float = lit "-1.5".
Proof. repeat split; vm_compute; reflexivity. Qed.

(** A second upload started while the first one awaits its stats: when
    the first call ends, the status is the "loading" one of the second,
    and the widget is idle although the second upload is under way. *)
Example second_drop_during_the_stats_fetch :
  let first1 := Async.handleFileUpload Samples.paper_pdf App.initial in
  let first2 := Async.resume Samples.healthy (fst first1) (snd first1) in
  let second1 := Async.handleFileUpload Samples.paper_pdf (snd first2) in
  let first3 := Async.resume Samples.healthy (fst first2) (snd second1) in
  option_map status_type (uploadStatus (app (snd first2)))
  = Some (lit "success")
  /\ fst first3 = Async.Settled (Returned tt)
  /\ option_map status_type (uploadStatus (app (snd first3)))
     = Some (lit "loading")
  /\ isUploading (fileUpload (snd first3)) = false
  /\ stats (app (snd first3)) = Some Samples.some_stats.
Proof. repeat split. Qed.
